(** * chainer-graph-cnn: the GraphConvolution link and the GraphCNN model

    A shallow embedding of

      - [lib/links/connection/graph_convolution.py]  (class GraphConvolution)
      - [lib/models/graph_cnn.py]                    (class GraphCNN)

    Python objects are records, attribute assignment is record update, and
    every method is a computation in a state-and-exception monad whose state
    is the receiver together with a [World]: the allocation counter that
    gives each [Parameter] object its identity, the random generator used
    by dropout, and the trace of the calls that leave the two classes. *)

From Stdlib Require Import ZArith List String Bool Lia QArith DecimalString.
Import ListNotations.
Open Scope Z_scope.

(** ** Exceptions *)

Inductive Exn : Type :=
| InvalidGraphError
| ConfigurationError
| ShapeError
| DeviceMismatchError
| IndexError
| ValueError
| RuntimeError.

(** ** The monad: state that survives a raised exception, as in Python *)

Definition M (S A : Type) : Type := S -> S * (Exn + A).

Definition ret {S A : Type} (a : A) : M S A := fun s => (s, inr a).

Definition raise {S A : Type} (e : Exn) : M S A := fun s => (s, inl e).

Definition bind {S A B : Type} (m : M S A) (k : A -> M S B) : M S B :=
  fun s => match m s with
           | (s', inr a) => k a s'
           | (s', inl e) => (s', inl e)
           end.

Definition lift {S A : Type} (r : Exn + A) : M S A := fun s => (s, r).

Definition modify {S : Type} (f : S -> S) : M S unit := fun s => (f s, inr tt).

Notation "x <- m ;; k" := (bind m (fun x => k))
  (at level 61, m at next level, right associativity).
Notation "m ;;; k" := (bind m (fun _ => k))
  (at level 61, right associativity).

(** A method of an object of type [T] runs on the pair (receiver, world). *)

Definition Method (T W A : Type) : Type := M (T * W) A.

Definition self {T W : Type} : Method T W T := fun s => (s, inr (fst s)).

Definition update_self {T W : Type} (f : T -> T) : Method T W unit :=
  modify (fun s => (f (fst s), snd s)).

Definition in_world {T W A : Type} (m : M W A) : Method T W A :=
  fun s => let (w', r) := m (snd s) in ((fst s, w'), r).

(** ** Devices *)

Inductive Device : Type :=
| Cpu
| Gpu (id : nat).

(** Floating-point constants of the source ([bias=0], [dropout_ratio = 0.5])
    are kept as exact rationals; no arithmetic is done on them. *)

Definition Float : Type := Q.

(** ** What the two classes call into

    [chainer] itself and the modules of this repository that the two
    embedded files import ([lib.graph], [lib.coarsening],
    [lib.functions.connection.graph_convolution],
    [lib.functions.pooling.graph_max_pooling]) are outside the embedded
    sources.  Their values are opaque carriers ([Carriers]) and their
    operations are the fields of one interface ([Platform], further down),
    so that every statement holds for any implementation of them. *)

Class Carriers : Type := {
  (** arrays and [chainer.Variable]s *)
  Var : Type;
  shape : Var -> list Z;
  (** weight (adjacency) matrix of a graph *)
  Graph : Type;
  Laplacian : Type;
  PoolingInds : Type;
  Labels : Type;
  (** an initial value given by the caller: a scalar, an array or a callable *)
  InitValue : Type;
  Initializer : Type;
  Rng : Type
}.

Section Data.

Context {C : Carriers}.

(** ** [chainer.Parameter]

    [p_id] is the identity of the Python object: the rank of its creation.
    [p_shape = None] is the uninitialized [Parameter()]; an initialized one
    has the array that [p_initializer] fills for [p_shape]. *)

Record Param : Type := mkParam {
  p_id : nat;
  p_initializer : option Initializer;
  p_shape : option (list Z);
  p_device : Device
}.

Definition Parameter_to_cpu (p : Param) : Param :=
  mkParam (p_id p) (p_initializer p) (p_shape p) Cpu.

Definition Parameter_to_gpu (d : nat) (p : Param) : Param :=
  mkParam (p_id p) (p_initializer p) (p_shape p) (Gpu d).

(** The logical value of a parameter: everything but where it lives. *)

Definition same_value (p q : Param) : Prop :=
  p_id p = p_id q /\ p_initializer p = p_initializer q /\ p_shape p = p_shape q.

(** ** [GraphConvolutionFunction]

    Modelled from the spec: lib/functions/connection/graph_convolution.py is
    not among the sources.  The spec (4.4, 5, 6) gives the filter as
    [forward(x, L, W, [b]) -> y] over a Laplacian that is its only persistent
    buffer, read-only across calls, with device-transfer hooks that move
    the buffer without changing its logical value.  The instance is built
    from [(L, K)] as the link's constructor does; [forward] itself is the
    field [graph_convolution] of [Platform]. *)

Record GraphConvolutionFunction : Type := mkFunction {
  f_L : Laplacian;
  f_K : Z;
  f_device : Device
}.

Definition Function_to_cpu (f : GraphConvolutionFunction)
  : GraphConvolutionFunction :=
  mkFunction (f_L f) (f_K f) Cpu.

Definition Function_to_gpu (d : nat) (f : GraphConvolutionFunction)
  : GraphConvolutionFunction :=
  mkFunction (f_L f) (f_K f) (Gpu d).

(** ** [GraphMaxPoolingFunction] and [chainer.links.Linear]

    Only their constructor arguments are observed. *)

Record GraphMaxPoolingFunction : Type := mkPooling {
  pooling_inds : PoolingInds
}.

Record Linear : Type := mkLinear {
  in_size : option Z;
  out_size : Z
}.

(** ** The world *)

Inductive Event : Type :=
| EvCreateLaplacian (A : Graph)
| EvNewParameter (p : Param)
| EvNewFunction (f : GraphConvolutionFunction)
| EvForward (f : GraphConvolutionFunction) (x : Var)
            (W : Param) (b : option Param)
| EvReport (loss acc : Var).

Record World : Type := mkWorld {
  next_id : nat;
  rng : Rng;
  trace : list Event
}.

Definition emit (e : Event) : M World unit :=
  modify (fun w => mkWorld (next_id w) (rng w) (trace w ++ [e])).

(** The bookkeeping of a [Parameter] that has been created: a new object,
    on the CPU.  Whether [Parameter(...)] gets that far is said by
    [new_Parameter], further down. *)

Definition allocate (init : option Initializer) (shp : option (list Z))
  : M World Param :=
  fun w =>
    let p := mkParam (next_id w) init shp Cpu in
    (mkWorld (S (next_id w)) (rng w) (trace w ++ [EvNewParameter p]), inr p).

(** [GraphConvolutionFunction(L, K)] *)

Definition new_Function (L : Laplacian) (K : Z)
  : M World GraphConvolutionFunction :=
  let f := mkFunction L K Cpu in
  emit (EvNewFunction f) ;;; ret f.

End Data.

(** ** The operations *)

Class Platform {C : Carriers} : Type := {
  scalar : Float -> InitValue;
  (** [chainer.initializers._get_initializer] *)
  _get_initializer : option InitValue -> Initializer;
  (** [chainer.initializers.generate_array] on a shape without negative
      dimension: it raises when numpy cannot hold such an array (a size
      beyond its limits, no memory) or when the initializer cannot fill it
      (an array of another shape, a callable that raises) *)
  generate_array : Initializer -> list Z -> Exn + unit;
  (** a vector of at most 65536 entries, filled with one scalar, can always
      be generated *)
  constant_vector : forall (c : Float) (n : Z),
    0 <= n <= 65536 ->
    generate_array (_get_initializer (Some (scalar c))) [n] = inr tt;
  (** [chainer.cuda.available], and the id of the device that is current
      when no device is named *)
  cuda_available : bool;
  current_device : nat;
  (** [lib.graph.create_laplacian] *)
  create_laplacian : Graph -> Exn + Laplacian;
  (** [lib.coarsening.coarsen] and [lib.coarsening.combine] *)
  coarsen : Graph -> Z -> Exn + (list Graph * list PoolingInds);
  combine : list Graph -> list PoolingInds -> Z
            -> Exn + (list Graph * list PoolingInds);
  (** forward pass of [GraphConvolutionFunction], with or without bias *)
  graph_convolution : GraphConvolutionFunction -> Var -> Param -> option Param
                      -> Exn + Var;
  (** forward pass of [GraphMaxPoolingFunction] *)
  graph_max_pooling : GraphMaxPoolingFunction -> Var -> Exn + Var;
  (** calling a [chainer.links.Linear], which may initialize it *)
  linear : Linear -> Var -> Linear * (Exn + Var);
  (** [chainer.functions]: relu, dropout, softmax_cross_entropy, accuracy *)
  relu : Var -> Var;
  dropout : Rng -> Var -> Float -> Rng * Var;
  softmax_cross_entropy : Var -> Labels -> Exn + Var;
  accuracy : Var -> Labels -> Exn + Var
}.

(** * lib/links/connection/graph_convolution.py *)

Section GraphConvolutionLink.

Context {C : Carriers} {P : Platform}.

(** The attributes of a [GraphConvolution] object.  The first three are
    those of the base class [chainer.link.Link]: the names of the parameters
    registered with the link, whether the link is on the CPU, and its
    device id. *)

Record GraphConvolution : Type := mkGraphConvolution {
  _params : list string;
  _cpu : bool;
  _device_id : option nat;
  K : Z;
  out_channels : Z;
  _W_initializer : Initializer;
  has_uninitialized_params : bool;
  W : Param;
  b : option Param;
  func : GraphConvolutionFunction
}.

Definition set_W (p : Param) (l : GraphConvolution) : GraphConvolution :=
  mkGraphConvolution (_params l) (_cpu l) (_device_id l) (K l) (out_channels l)
    (_W_initializer l) (has_uninitialized_params l) p (b l) (func l).

Definition set_b (p : option Param) (l : GraphConvolution) : GraphConvolution :=
  mkGraphConvolution (_params l) (_cpu l) (_device_id l) (K l) (out_channels l)
    (_W_initializer l) (has_uninitialized_params l) (W l) p (func l).

Definition set_func (f : GraphConvolutionFunction) (l : GraphConvolution)
  : GraphConvolution :=
  mkGraphConvolution (_params l) (_cpu l) (_device_id l) (K l) (out_channels l)
    (_W_initializer l) (has_uninitialized_params l) (W l) (b l) f.

Definition set_device (cpu : bool) (id : option nat) (l : GraphConvolution)
  : GraphConvolution :=
  mkGraphConvolution (_params l) cpu id (K l) (out_channels l)
    (_W_initializer l) (has_uninitialized_params l) (W l) (b l) (func l).

(** ** The base class [chainer.link.Link]

    [Link.__init__] registers nothing and starts on the CPU.  A parameter is
    registered only by an assignment inside [init_scope()] (or by
    [add_param]); [Link.to_cpu] and [Link.to_gpu] move the registered
    parameters, and do nothing when the link is already on that side. *)

Definition registered (name : string) (l : GraphConvolution) : bool :=
  existsb (String.eqb name) (_params l).

Definition move_registered (mv : Param -> Param) (l : GraphConvolution)
  : GraphConvolution :=
  let l1 := if registered "W"%string l then set_W (mv (W l)) l else l in
  if registered "b"%string l1 then set_b (option_map mv (b l1)) l1 else l1.

Definition Link_to_cpu : Method GraphConvolution World unit :=
  update_self (fun l =>
    if _cpu l then l
    else set_device true None (move_registered Parameter_to_cpu l)).

Definition resolve (device : option nat) : nat :=
  match device with
  | Some d => d
  | None => current_device
  end.

Definition Link_to_gpu (device : option nat) : Method GraphConvolution World unit :=
  if cuda_available then
    update_self (fun l =>
      if _cpu l then
        set_device false (Some (resolve device))
          (move_registered (Parameter_to_gpu (resolve device)) l)
      else l)
  else raise RuntimeError.

(** ** [chainer.Parameter(...)]

    [Parameter(initializer, shape)] builds its array with [generate_array],
    that is [numpy.empty(shape)] and then the initializer.  [numpy.empty]
    raises [ValueError] on a negative dimension; every other failure is the
    platform's.  When the array cannot be built no object is created.
    [Parameter()] builds no array and cannot fail. *)

Definition generate (init : Initializer) (shp : list Z) : Exn + unit :=
  if forallb (fun d => 0 <=? d) shp
  then generate_array init shp
  else inl ValueError.

Definition new_Parameter (spec : option (Initializer * list Z))
  : M World Param :=
  match spec with
  | None => allocate None None
  | Some (init, shp) =>
      lift (generate init shp) ;;;
      allocate (Some init) (Some shp)
  end.

(** ** [GraphConvolution._initialize_params] *)

Definition make_W (out_channels K : Z) (W_initializer : Initializer)
  (in_channels : Z) : M World Param :=
  let W_shape := [out_channels; in_channels; K] in
  new_Parameter (Some (W_initializer, W_shape)).

Definition GraphConvolution_initialize_params (in_channels : Z)
  : Method GraphConvolution World unit :=
  l <- self ;;
  p <- in_world (make_W (out_channels l) (K l) (_W_initializer l) in_channels) ;;
  update_self (set_W p).

(** ** [GraphConvolution.__init__]

    The attributes are assigned in the order of the source; none of the
    parameters is assigned inside an [init_scope()], so [_params] stays
    empty. *)

Definition GraphConvolution_init (in_channels : option Z) (out_channels : Z)
  (A : Graph) (K : Z) (bias : Float) (nobias : bool)
  (initialW initial_bias : option InitValue) : M World GraphConvolution :=
  emit (EvCreateLaplacian A) ;;;
  L <- lift (create_laplacian A) ;;
  let W_initializer := _get_initializer initialW in
  W <- match in_channels with
       | None => new_Parameter None
       | Some c => make_W out_channels K W_initializer c
       end ;;
  b <- (if nobias then ret None
        else
          let initial_bias :=
            match initial_bias with
            | None => scalar bias
            | Some v => v
            end in
          let bias_initializer := _get_initializer (Some initial_bias) in
          p <- new_Parameter (Some (bias_initializer, [out_channels])) ;;
          ret (Some p)) ;;
  f <- new_Function L K ;;
  ret (mkGraphConvolution [] true None K out_channels W_initializer
         (match in_channels with None => true | Some _ => false end)
         W b f).

(** ** [GraphConvolution.to_cpu] and [GraphConvolution.to_gpu] *)

Definition GraphConvolution_to_cpu : Method GraphConvolution World unit :=
  Link_to_cpu ;;;
  update_self (fun l => set_func (Function_to_cpu (func l)) l).

Definition GraphConvolution_to_gpu (device : option nat)
  : Method GraphConvolution World unit :=
  let d := resolve device in
  Link_to_gpu device ;;;
  update_self (fun l => set_W (Parameter_to_gpu d (W l)) l) ;;;
  update_self (fun l => set_b (option_map (Parameter_to_gpu d) (b l)) l) ;;;
  update_self (fun l => set_func (Function_to_gpu d (func l)) l).

(** ** [GraphConvolution.__call__] *)

(** [x.shape[1]] *)

Definition channels (x : Var) : Exn + Z :=
  match nth_error (shape x) 1 with
  | Some c => inr c
  | None => inl IndexError
  end.

(** [self.func(x, W)] and [self.func(x, W, b)] *)

Definition Function_call (f : GraphConvolutionFunction) (x : Var)
  (W : Param) (b : option Param) : M World Var :=
  emit (EvForward f x W b) ;;;
  lift (graph_convolution f x W b).

Definition GraphConvolution_call (x : Var) : Method GraphConvolution World Var :=
  l <- self ;;
  (if has_uninitialized_params l then
     if cuda_available then
       let device := resolve (_device_id l) in
       c <- lift (channels x) ;;
       GraphConvolution_initialize_params c ;;;
       GraphConvolution_to_gpu (Some device)
     else
       c <- lift (channels x) ;;
       GraphConvolution_initialize_params c
   else ret tt) ;;;
  l <- self ;;
  match b l with
  | None => in_world (Function_call (func l) x (W l) None)
  | Some bias => in_world (Function_call (func l) x (W l) (Some bias))
  end.

End GraphConvolutionLink.

(** * lib/models/graph_cnn.py *)

Section GraphCNNModel.

Context {C : Carriers} {P : Platform}.

(** The numbered sublayers are also written into [__dict__] under a name:
    the entry holds the very object that sits in the layer list, so it is
    kept as the position of that object in its list. *)

Inductive LayerRef : Type :=
| GraphLayer (i : nat)
| LinearLayer (i : nat).

Record GraphCNN : Type := mkGraphCNN {
  graph_layers : list (GraphConvolution * GraphMaxPoolingFunction);
  linear_layers : list Linear;
  cls_layer : Linear;
  train : bool;
  __dict__ : list (string * LayerRef)
}.

Definition set_graph_layers
  (gl : list (GraphConvolution * GraphMaxPoolingFunction)) (m : GraphCNN)
  : GraphCNN :=
  mkGraphCNN gl (linear_layers m) (cls_layer m) (train m) (__dict__ m).

Definition set_linear_layers (ll : list Linear) (m : GraphCNN) : GraphCNN :=
  mkGraphCNN (graph_layers m) ll (cls_layer m) (train m) (__dict__ m).

Definition set_cls_layer (f : Linear) (m : GraphCNN) : GraphCNN :=
  mkGraphCNN (graph_layers m) (linear_layers m) f (train m) (__dict__ m).

Definition set_train (t : bool) (m : GraphCNN) : GraphCNN :=
  mkGraphCNN (graph_layers m) (linear_layers m) (cls_layer m) t (__dict__ m).

(** ** [GraphCNN.__init__] *)

(** ['gconv{}'.format(i)], ['l{}'.format(i)] *)

Definition format (prefix : string) (i : nat) : string :=
  (prefix ++ NilEmpty.string_of_uint (Nat.to_uint i))%string.

(** [zip(graphs, pooling_inds, sizes)]: as long as the shortest of the three *)

Definition zip3 {X Y Z' : Type} (xs : list X) (ys : list Y) (zs : list Z')
  : list (X * Y * Z') :=
  List.combine (List.combine xs ys) zs.

(** The first loop, from index [i] on: one link and one pooling function per
    triple.  [GraphConvolution(None, s, g, K=25)] takes the defaults
    [bias=0], [nobias=False], [initialW=None], [initial_bias=None]. *)

Fixpoint build_graph_layers (i : nat) (triples : list (Graph * PoolingInds * Z))
  : M World (list (GraphConvolution * GraphMaxPoolingFunction)
             * list (string * LayerRef)) :=
  match triples with
  | [] => ret ([], [])
  | (g, inds, s) :: rest =>
      f <- GraphConvolution_init None s g 25 0%Q false None None ;;
      let p := mkPooling inds in
      r <- build_graph_layers (S i) rest ;;
      ret ((f, p) :: fst r, (format "gconv"%string i, GraphLayer i) :: snd r)
  end.

Fixpoint build_linear_layers (i : nat) (sizes : list Z)
  : list Linear * list (string * LayerRef) :=
  match sizes with
  | [] => ([], [])
  | s :: rest =>
      let f := mkLinear None s in
      let r := build_linear_layers (S i) rest in
      (f :: fst r, (format "l"%string i, LinearLayer i) :: snd r)
  end.

Definition GraphCNN_init (A : Graph) (n_out : Z) : M World GraphCNN :=
  r <- lift (coarsen A 4) ;;
  let (graphs, pooling_inds) := r in
  r <- lift (combine graphs pooling_inds 2) ;;
  let (graphs, pooling_inds) := r in
  let sizes := [32; 64] in
  gl <- build_graph_layers 0 (zip3 graphs pooling_inds sizes) ;;
  let sizes := [512] in
  let ll := build_linear_layers 0 sizes in
  ret (mkGraphCNN (fst gl) (fst ll) (mkLinear None n_out) true
         (snd gl ++ snd ll)).

(** ** [GraphCNN.__call__] *)

Definition dropout_ratio : Float := (1 # 2)%Q.

(** A method of a part of the receiver, run on the receiver. *)

Definition zoom {T U A : Type} (proj : T -> U) (inj : U -> T -> T)
  (m : Method U World A) : Method T World A :=
  fun s =>
    match m (proj (fst s), snd s) with
    | ((u, w), r) => ((inj u (fst s), w), r)
    end.

(** [for f, p in self.graph_layers: h = p(F.relu(f(h)))].  The links in the
    list are the objects themselves: what a call does to a link stays in the
    list, also when a later layer raises. *)

Fixpoint apply_graph_layers
  (layers : list (GraphConvolution * GraphMaxPoolingFunction)) (h : Var)
  (w : World)
  : (list (GraphConvolution * GraphMaxPoolingFunction) * World) * (Exn + Var) :=
  match layers with
  | [] => (([], w), inr h)
  | (f, p) :: rest =>
      match GraphConvolution_call h (f, w) with
      | ((f', w'), inl e) => (((f', p) :: rest, w'), inl e)
      | ((f', w'), inr y) =>
          match graph_max_pooling p (relu y) with
          | inl e => (((f', p) :: rest, w'), inl e)
          | inr h' =>
              match apply_graph_layers rest h' w' with
              | ((rest', w''), r) => (((f', p) :: rest', w''), r)
              end
          end
      end
  end.

(** [F.dropout(y, ratio)] draws from the generator of the world. *)

Definition draw_dropout (y : Var) (ratio : Float) : M World Var :=
  fun w =>
    let (g, d) := dropout (rng w) y ratio in
    (mkWorld (next_id w) g (trace w), inr d).

(** [for f in self.linear_layers: h = F.relu(F.dropout(f(h), dropout_ratio))] *)

Fixpoint apply_linear_layers (layers : list Linear) (h : Var) (w : World)
  : (list Linear * World) * (Exn + Var) :=
  match layers with
  | [] => (([], w), inr h)
  | f :: rest =>
      match linear f h with
      | (f', inl e) => ((f' :: rest, w), inl e)
      | (f', inr y) =>
          match draw_dropout y dropout_ratio w with
          | (w', inl e) => ((f' :: rest, w'), inl e)
          | (w', inr d) =>
              match apply_linear_layers rest (relu d) w' with
              | ((rest', w''), r) => ((f' :: rest', w''), r)
              end
          end
      end
  end.

Definition call_linear (h : Var) : Method Linear World Var :=
  fun s => let (f', r) := linear (fst s) h in ((f', snd s), r).

(** The body of [__call__] up to [if args:]. *)

Definition network (x : Var) : Method GraphCNN World Var :=
  h <- zoom graph_layers set_graph_layers
         (fun s => apply_graph_layers (fst s) x (snd s)) ;;
  h <- zoom linear_layers set_linear_layers
         (fun s => apply_linear_layers (fst s) h (snd s)) ;;
  zoom cls_layer set_cls_layer (call_linear h).

Definition GraphCNN_call (x : Var) (args : list Labels)
  : Method GraphCNN World Var :=
  h <- network x ;;
  match args with
  | labels :: _ =>
      loss <- lift (softmax_cross_entropy h labels) ;;
      acc <- lift (accuracy h labels) ;;
      in_world (emit (EvReport loss acc)) ;;;
      ret loss
  | [] => ret h
  end.

End GraphCNNModel.

(** * Properties of the link *)

Section GraphConvolutionFacts.

Context {C : Carriers} {P : Platform}.

(** Successive forward calls on one link; a caller may catch what a call
    raises and go on, so the state is threaded through whatever is returned. *)

Definition forward_calls (xs : list Var) (s : GraphConvolution * World)
  : GraphConvolution * World :=
  fold_left (fun s x => fst (GraphConvolution_call x s)) xs s.

(** How often the trace computes a Laplacian, and builds a filter function. *)

Definition is_laplacian (e : Event) : bool :=
  match e with EvCreateLaplacian _ => true | _ => false end.

Definition is_new_function (e : Event) : bool :=
  match e with EvNewFunction _ => true | _ => false end.

Definition is_new_parameter (e : Event) : bool :=
  match e with EvNewParameter _ => true | _ => false end.

Definition count (f : Event -> bool) (w : World) : nat :=
  List.length (filter f (trace w)).

(** The world after one more event. *)

Definition logged (e : Event) (w : World) : World :=
  mkWorld (next_id w) (rng w) (trace w ++ [e]).

(** The world and the weight after [Parameter(initializer, shape)]. *)

Definition allocated (p : Param) (w : World) : World :=
  mkWorld (S (next_id w)) (rng w) (trace w ++ [EvNewParameter p]).

Definition fresh_W (l : GraphConvolution) (c : Z) (w : World) : Param :=
  mkParam (next_id w) (Some (_W_initializer l))
    (Some [out_channels l; c; K l]) Cpu.

(** The link after [to_gpu(d)], when CUDA is there. *)

Definition on_gpu (d : nat) (l : GraphConvolution) : GraphConvolution :=
  let l0 := if _cpu l
            then set_device false (Some d) (move_registered (Parameter_to_gpu d) l)
            else l in
  let l1 := set_W (Parameter_to_gpu d (W l0)) l0 in
  let l2 := set_b (option_map (Parameter_to_gpu d) (b l1)) l1 in
  set_func (Function_to_gpu d (func l2)) l2.

Lemma to_gpu_spec (device : option nat) (l : GraphConvolution) (w : World) :
  GraphConvolution_to_gpu device (l, w) =
  if cuda_available then ((on_gpu (resolve device) l, w), inr tt)
  else ((l, w), inl RuntimeError).
Proof.
  unfold GraphConvolution_to_gpu, Link_to_gpu, on_gpu, bind, update_self, modify, raise.
  destruct cuda_available; reflexivity.
Qed.

(** Whether the weight of [l] can be built for [c] input channels. *)

Definition weight_of (l : GraphConvolution) (c : Z) : Exn + unit :=
  generate (_W_initializer l) [out_channels l; c; K l].

Lemma initialize_params_spec (c : Z) (l : GraphConvolution) (w : World) :
  GraphConvolution_initialize_params c (l, w) =
  match weight_of l c with
  | inl e => ((l, w), inl e)
  | inr _ => ((set_W (fresh_W l c w) l, allocated (fresh_W l c w) w), inr tt)
  end.
Proof.
  unfold GraphConvolution_initialize_params, weight_of, make_W, new_Parameter.
  unfold bind at 1. cbn [self fst snd].
  unfold bind at 1. unfold in_world. cbn [fst snd].
  unfold bind at 1. unfold lift at 1.
  destruct (generate _ _) as [e | u]; reflexivity.
Qed.

(** The final call of the filter function with the attributes of [l]. *)

Definition filtered (x : Var) (l : GraphConvolution) (w : World)
  : (GraphConvolution * World) * (Exn + Var) :=
  ((l, logged (EvForward (func l) x (W l) (b l)) w),
   graph_convolution (func l) x (W l) (b l)).

(** One forward call, case by case. *)

Lemma call_spec (x : Var) (l : GraphConvolution) (w : World) :
  GraphConvolution_call x (l, w) =
  if has_uninitialized_params l then
    match channels x with
    | inl e => ((l, w), inl e)
    | inr c =>
        match weight_of l c with
        | inl e => ((l, w), inl e)
        | inr _ =>
            let l1 := set_W (fresh_W l c w) l in
            let w1 := allocated (fresh_W l c w) w in
            if cuda_available
            then filtered x (on_gpu (resolve (_device_id l)) l1) w1
            else filtered x l1 w1
        end
    end
  else filtered x l w.
Proof.
  unfold GraphConvolution_call, filtered.
  unfold bind at 1. cbn [self fst snd].
  destruct (has_uninitialized_params l) eqn:Hu.
  - destruct (channels x) as [e | c] eqn:Hc.
    + destruct cuda_available; reflexivity.
    + destruct cuda_available eqn:Hcuda.
      * unfold bind at 1. unfold bind at 1. unfold lift at 1.
        unfold bind at 1. rewrite initialize_params_spec.
        destruct (weight_of l c) as [e | u]; [reflexivity |].
        rewrite to_gpu_spec, Hcuda. cbn [resolve].
        unfold bind at 1. cbn [self fst snd].
        destruct (b (on_gpu _ _)); reflexivity.
      * unfold bind at 1. unfold bind at 1. unfold lift at 1.
        rewrite initialize_params_spec.
        destruct (weight_of l c) as [e | u]; [reflexivity |].
        unfold bind at 1. cbn [self fst snd set_W b].
        destruct (b l); reflexivity.
  - unfold bind at 1. unfold ret at 1. unfold bind at 1. cbn [self fst snd].
    destruct (b l); reflexivity.
Qed.

(** ** The constructor, case by case *)

Definition initial_W (in_channels : option Z) (out k : Z)
  (initialW : option InitValue) (w : World) : Param :=
  match in_channels with
  | None => mkParam (next_id w) None None Cpu
  | Some c =>
      mkParam (next_id w) (Some (_get_initializer initialW)) (Some [out; c; k]) Cpu
  end.

Definition initial_b (out : Z) (bias : Float) (initial_bias : option InitValue)
  (w : World) : Param :=
  mkParam (next_id w)
    (Some (_get_initializer
             (Some (match initial_bias with None => scalar bias | Some v => v end))))
    (Some [out]) Cpu.

Definition built (in_channels : option Z) (out : Z) (A : Graph) (k : Z)
  (bias : Float) (nobias : bool) (initialW initial_bias : option InitValue)
  (L : Laplacian) (w : World) : World * GraphConvolution :=
  let w1 := logged (EvCreateLaplacian A) w in
  let W0 := initial_W in_channels out k initialW w1 in
  let w2 := allocated W0 w1 in
  let b0 := if nobias then None else Some (initial_b out bias initial_bias w2) in
  let w3 := match b0 with None => w2 | Some p => allocated p w2 end in
  let f := mkFunction L k Cpu in
  (logged (EvNewFunction f) w3,
   mkGraphConvolution [] true None k out (_get_initializer initialW)
     (match in_channels with None => true | Some _ => false end) W0 b0 f).

(** Whether the arrays of the constructor can be built: the weight, for a
    concrete [in_channels], and the bias, unless [nobias]. *)

Definition initial_weight (in_channels : option Z) (out k : Z)
  (initialW : option InitValue) : Exn + unit :=
  match in_channels with
  | None => inr tt
  | Some c => generate (_get_initializer initialW) [out; c; k]
  end.

Definition initial_bias_of (out : Z) (bias : Float) (nobias : bool)
  (initial_bias : option InitValue) : Exn + unit :=
  if nobias then inr tt
  else generate
         (_get_initializer
            (Some (match initial_bias with None => scalar bias | Some v => v end)))
         [out].

Lemma init_spec (in_channels : option Z) (out : Z) (A : Graph) (k : Z)
  (bias : Float) (nobias : bool) (initialW initial_bias : option InitValue)
  (w : World) :
  GraphConvolution_init in_channels out A k bias nobias initialW initial_bias w =
  match create_laplacian A with
  | inl e => (logged (EvCreateLaplacian A) w, inl e)
  | inr L =>
      let w1 := logged (EvCreateLaplacian A) w in
      match initial_weight in_channels out k initialW with
      | inl e => (w1, inl e)
      | inr _ =>
          match initial_bias_of out bias nobias initial_bias with
          | inl e => (allocated (initial_W in_channels out k initialW w1) w1, inl e)
          | inr _ =>
              let (w', l) :=
                built in_channels out A k bias nobias initialW initial_bias L w in
              (w', inr l)
          end
      end
  end.
Proof.
  unfold GraphConvolution_init, built, initial_weight, initial_bias_of.
  unfold bind at 1. cbn [emit modify].
  unfold bind at 1. unfold lift at 1.
  destruct (create_laplacian A) as [e | L]; [reflexivity |].
  destruct in_channels as [c |].
  - unfold bind at 1. unfold make_W, new_Parameter.
    unfold bind at 1. unfold lift at 1.
    destruct (generate (_get_initializer initialW) [out; c; k]) as [e | u];
      [reflexivity |].
    destruct nobias; [reflexivity |].
    unfold bind at 1. unfold bind at 1. unfold new_Parameter.
    unfold bind at 1. unfold lift at 1.
    destruct (generate _ [out]) as [e | u']; reflexivity.
  - destruct nobias; [reflexivity |].
    unfold bind at 1. cbn [new_Parameter allocate].
    unfold bind at 1. unfold bind at 1. unfold new_Parameter.
    unfold bind at 1. unfold lift at 1.
    destruct (generate _ [out]) as [e | u']; reflexivity.
Qed.

Lemma init_built (in_channels : option Z) (out : Z) (A : Graph) (k : Z)
  (bias : Float) (nobias : bool) (initialW initial_bias : option InitValue)
  (w w' : World) (l : GraphConvolution) :
  GraphConvolution_init in_channels out A k bias nobias initialW initial_bias w
    = (w', inr l) ->
  exists L, create_laplacian A = inr L /\
    built in_channels out A k bias nobias initialW initial_bias L w = (w', l).
Proof.
  rewrite init_spec. destruct (create_laplacian A) as [e | L]; [discriminate |].
  cbn zeta.
  destruct (initial_weight _ _ _ _); [discriminate |].
  destruct (initial_bias_of _ _ _ _); [discriminate |].
  destruct (built _ _ _ _ _ _ _ _ _ _) as [w1 l1] eqn:Hb. intros H.
  injection H as <- <-. exists L. split; [reflexivity | exact Hb].
Qed.

(** ** Counting in traces *)

Lemma count_logged (f : Event -> bool) (e : Event) (w : World) :
  count f (logged e w) = (count f w + (if f e then 1 else 0))%nat.
Proof.
  unfold count, logged. cbn [trace]. rewrite filter_app, length_app.
  cbn [filter]. destruct (f e); reflexivity.
Qed.

Lemma count_allocated (f : Event -> bool) (p : Param) (w : World) :
  count f (allocated p w) = (count f w + (if f (EvNewParameter p) then 1 else 0))%nat.
Proof.
  unfold count, allocated. cbn [trace]. rewrite filter_app, length_app.
  cbn [filter]. destruct (f (EvNewParameter p)); reflexivity.
Qed.

(** ** What a forward call does to the link and to the counts *)

Lemma on_gpu_func (d : nat) (l : GraphConvolution) :
  func (on_gpu d l) = Function_to_gpu d (func l).
Proof.
  unfold on_gpu, move_registered.
  destruct (_cpu l); [| reflexivity].
  destruct (registered "W"%string l); destruct (registered "b"%string _); reflexivity.
Qed.

Lemma on_gpu_flag (d : nat) (l : GraphConvolution) :
  has_uninitialized_params (on_gpu d l) = has_uninitialized_params l.
Proof.
  unfold on_gpu, move_registered.
  destruct (_cpu l); [| reflexivity].
  destruct (registered "W"%string l); destruct (registered "b"%string _); reflexivity.
Qed.

Lemma call_initialized (x : Var) (l : GraphConvolution) (w : World) :
  has_uninitialized_params l = false ->
  fst (fst (GraphConvolution_call x (l, w))) = l.
Proof. intros H. rewrite call_spec, H. reflexivity. Qed.

Lemma call_flag (x : Var) (l : GraphConvolution) (w : World) :
  has_uninitialized_params (fst (fst (GraphConvolution_call x (l, w))))
  = has_uninitialized_params l.
Proof.
  rewrite call_spec.
  destruct (has_uninitialized_params l) eqn:Hu; [| exact Hu].
  destruct (channels x) as [e | c]; [exact Hu |].
  destruct (weight_of l c); [exact Hu |].
  destruct cuda_available; cbn [filtered fst]; [rewrite on_gpu_flag |]; exact Hu.
Qed.

Lemma call_laplacian (x : Var) (l : GraphConvolution) (w : World) :
  f_L (func (fst (fst (GraphConvolution_call x (l, w))))) = f_L (func l)
  /\ f_K (func (fst (fst (GraphConvolution_call x (l, w))))) = f_K (func l).
Proof.
  rewrite call_spec.
  destruct (has_uninitialized_params l); [| split; reflexivity].
  destruct (channels x) as [e | c]; [split; reflexivity |].
  destruct (weight_of l c); [split; reflexivity |].
  destruct cuda_available; cbn [filtered fst]; [rewrite on_gpu_func |];
    split; reflexivity.
Qed.

Lemma call_count (f : Event -> bool) (x : Var) (l : GraphConvolution) (w : World) :
  (forall p, f (EvNewParameter p) = false) ->
  (forall g y p q, f (EvForward g y p q) = false) ->
  count f (snd (fst (GraphConvolution_call x (l, w)))) = count f w.
Proof.
  intros Hp Hf. rewrite call_spec.
  destruct (has_uninitialized_params l).
  - destruct (channels x) as [e | c]; [reflexivity |].
    destruct (weight_of l c); [reflexivity |].
    destruct cuda_available; cbn [filtered fst snd];
      rewrite count_logged, count_allocated, Hp, Hf; lia.
  - cbn [filtered fst snd]. rewrite count_logged, Hf. lia.
Qed.

(** ** Device transfers, attribute by attribute *)

Lemma move_registered_eq (mv : Param -> Param) (l : GraphConvolution) :
  move_registered mv l =
  mkGraphConvolution (_params l) (_cpu l) (_device_id l) (K l) (out_channels l)
    (_W_initializer l) (has_uninitialized_params l)
    (if registered "W"%string l then mv (W l) else W l)
    (if registered "b"%string l then option_map mv (b l) else b l)
    (func l).
Proof.
  destruct l as [ps cpu id k' out wi hu W0 b0 f0].
  unfold move_registered, registered.
  cbn [_params _cpu _device_id K out_channels _W_initializer
       has_uninitialized_params W b func].
  destruct (existsb (String.eqb "W"%string) ps);
    cbn [set_W set_b _params _cpu _device_id K out_channels _W_initializer
         has_uninitialized_params W b func];
    destruct (existsb (String.eqb "b"%string) ps); reflexivity.
Qed.

Lemma on_gpu_eq (d : nat) (l : GraphConvolution) :
  on_gpu d l =
  mkGraphConvolution (_params l) false
    (if _cpu l then Some d else _device_id l)
    (K l) (out_channels l) (_W_initializer l) (has_uninitialized_params l)
    (Parameter_to_gpu d (W l)) (option_map (Parameter_to_gpu d) (b l))
    (Function_to_gpu d (func l)).
Proof.
  unfold on_gpu. rewrite move_registered_eq.
  destruct l as [ps cpu id k' out wi hu W0 b0 f0].
  cbn [_params _cpu _device_id K out_channels _W_initializer
       has_uninitialized_params W b func].
  destruct cpu; [| reflexivity].
  destruct (registered "W"%string _), (registered "b"%string _), b0; reflexivity.
Qed.

(** The link after [to_cpu()]. *)

Definition on_cpu (l : GraphConvolution) : GraphConvolution :=
  let l0 := if _cpu l then l
            else set_device true None (move_registered Parameter_to_cpu l) in
  set_func (Function_to_cpu (func l0)) l0.

Lemma to_cpu_spec (l : GraphConvolution) (w : World) :
  GraphConvolution_to_cpu (l, w) = ((on_cpu l, w), inr tt).
Proof. reflexivity. Qed.

Lemma on_cpu_unregistered (l : GraphConvolution) :
  _params l = [] ->
  on_cpu l =
  mkGraphConvolution [] true (if _cpu l then _device_id l else None)
    (K l) (out_channels l) (_W_initializer l) (has_uninitialized_params l)
    (W l) (b l) (Function_to_cpu (func l)).
Proof.
  destruct l as [ps cpu id k' out wi hu W0 b0 f0].
  cbn [_params]. intros ->.
  unfold on_cpu. destruct cpu; reflexivity.
Qed.

End GraphConvolutionFacts.

Section GraphConvolutionTheorems.

Context {C : Carriers} {P : Platform}.

Lemma forward_calls_cons (x : Var) (xs : list Var) (s : GraphConvolution * World) :
  forward_calls (x :: xs) s = forward_calls xs (fst (GraphConvolution_call x s)).
Proof. reflexivity. Qed.

(** C7.  When [create_laplacian(A)] raises, the constructor raises the same
    exception at once: the world it leaves has seen the one call of
    [create_laplacian] and nothing else, so the call was not tried again, no
    [Parameter] was allocated and no filter function was built, and no link
    is returned. *)

Theorem init_raises_laplacian_error
  (in_channels : option Z) (out : Z) (A : Graph) (k : Z) (bias : Float)
  (nobias : bool) (initialW initial_bias : option InitValue) (w : World)
  (e : Exn) :
  create_laplacian A = inl e ->
  GraphConvolution_init in_channels out A k bias nobias initialW initial_bias w
  = (mkWorld (next_id w) (rng w) (trace w ++ [EvCreateLaplacian A]), inl e).
Proof.
  intros He. rewrite init_spec, He. reflexivity.
Qed.

(** C2.  A link constructed with a concrete [in_channels] is the same record
    (the same [W], [b], [func], [K], [out_channels],
    [has_uninitialized_params] and base-class attributes) after any run of
    forward calls, whatever the inputs and whether or not a call raises. *)

Theorem initialized_link_unchanged_by_calls
  (c out : Z) (A : Graph) (k : Z) (bias : Float) (nobias : bool)
  (initialW initial_bias : option InitValue) (w0 w1 : World)
  (l : GraphConvolution) :
  GraphConvolution_init (Some c) out A k bias nobias initialW initial_bias w0
    = (w1, inr l) ->
  forall (xs : list Var) (w : World), fst (forward_calls xs (l, w)) = l.
Proof.
  intros Hinit.
  assert (Hu : has_uninitialized_params l = false).
  { destruct (init_built _ _ _ _ _ _ _ _ _ _ _ Hinit) as (L & _ & Hb).
    unfold built in Hb. injection Hb as _ <-. reflexivity. }
  induction xs as [| x xs IH]; intros w; [reflexivity |].
  rewrite forward_calls_cons.
  pose proof (call_initialized x l w Hu) as Hl.
  destruct (GraphConvolution_call x (l, w)) as [[l' w'] r].
  cbn [fst] in *. subst l'. apply IH.
Qed.

(** C3.  The constructor computes the Laplacian once, from [A], builds one
    filter function and hands it that Laplacian; after any run of forward
    calls the function of the link still holds that Laplacian and that [K],
    and the run has computed no Laplacian and built no function. *)

Theorem laplacian_computed_once
  (in_channels : option Z) (out : Z) (A : Graph) (k : Z) (bias : Float)
  (nobias : bool) (initialW initial_bias : option InitValue) (w0 w1 : World)
  (l : GraphConvolution) :
  GraphConvolution_init in_channels out A k bias nobias initialW initial_bias w0
    = (w1, inr l) ->
  exists L : Laplacian,
    create_laplacian A = inr L
    /\ func l = mkFunction L k Cpu
    /\ count is_laplacian w1 = S (count is_laplacian w0)
    /\ count is_new_function w1 = S (count is_new_function w0)
    /\ In (EvCreateLaplacian A) (trace w1)
    /\ In (EvNewFunction (func l)) (trace w1)
    /\ forall (xs : list Var) (w : World),
         let s := forward_calls xs (l, w) in
         f_L (func (fst s)) = L
         /\ f_K (func (fst s)) = k
         /\ count is_laplacian (snd s) = count is_laplacian w
         /\ count is_new_function (snd s) = count is_new_function w.
Proof.
  intros Hinit.
  destruct (init_built _ _ _ _ _ _ _ _ _ _ _ Hinit) as (L & HL & Hb).
  exists L. unfold built in Hb. injection Hb as <- <-.
  split; [exact HL |]. split; [reflexivity |].
  split.
  { destruct nobias; cbn iota; rewrite !count_logged, !count_allocated,
      !count_logged; cbn [is_laplacian]; lia. }
  split.
  { destruct nobias; cbn iota; rewrite !count_logged, !count_allocated,
      !count_logged; cbn [is_new_function]; lia. }
  split.
  { destruct nobias; cbn [logged allocated trace]; rewrite !in_app_iff;
      cbn; tauto. }
  split.
  { destruct nobias; cbn [logged allocated trace func]; rewrite !in_app_iff;
      cbn; tauto. }
  set (l0 := mkGraphConvolution _ _ _ _ _ _ _ _ _ _).
  assert (HL0 : f_L (func l0) = L) by reflexivity.
  assert (HK0 : f_K (func l0) = k) by reflexivity.
  clearbody l0. clear Hinit.
  intros xs. revert l0 HL0 HK0.
  induction xs as [| x xs IH]; intros l0 HL0 HK0 w; cbn zeta.
  { cbn. repeat split; assumption. }
  rewrite forward_calls_cons.
  destruct (call_laplacian x l0 w) as [H1 H2].
  pose proof (call_count is_laplacian x l0 w (fun _ => eq_refl)
                (fun _ _ _ _ => eq_refl)) as H3.
  pose proof (call_count is_new_function x l0 w (fun _ => eq_refl)
                (fun _ _ _ _ => eq_refl)) as H4.
  destruct (GraphConvolution_call x (l0, w)) as [[l' w'] r].
  cbn [fst snd] in *.
  specialize (IH l' (eq_trans H1 HL0) (eq_trans H2 HK0) w'). cbn zeta in IH.
  destruct IH as (I1 & I2 & I3 & I4).
  repeat split; congruence.
Qed.

(** ** The deferred initialization *)

(** The link after a forward call that finds [has_uninitialized_params]
    set, for an input with [c] channels, when the weight can be built. *)

Definition lazily (l : GraphConvolution) (c : Z) (w : World) : GraphConvolution :=
  if cuda_available
  then on_gpu (resolve (_device_id l)) (set_W (fresh_W l c w) l)
  else set_W (fresh_W l c w) l.

Lemma call_lazy (x : Var) (l : GraphConvolution) (w : World) (c : Z) :
  has_uninitialized_params l = true ->
  channels x = inr c ->
  weight_of l c = inr tt ->
  GraphConvolution_call x (l, w) =
  filtered x (lazily l c w) (allocated (fresh_W l c w) w).
Proof.
  intros Hu Hc Hg. rewrite call_spec, Hu, Hc, Hg. unfold lazily.
  destruct cuda_available; reflexivity.
Qed.

(** A call that stops at [x.shape[1]] or at the creation of the weight. *)

Lemma call_refused (x : Var) (l : GraphConvolution) (w : World) (e : Exn) :
  has_uninitialized_params l = true ->
  match channels x with
  | inl e' => e' = e
  | inr c => weight_of l c = inl e
  end ->
  GraphConvolution_call x (l, w) = ((l, w), inl e).
Proof.
  intros Hu H. rewrite call_spec, Hu.
  destruct (channels x) as [e' | c]; [subst e'; reflexivity |].
  rewrite H. reflexivity.
Qed.

Lemma lazily_attributes (l : GraphConvolution) (c : Z) (w : World) :
  let l' := lazily l c w in
  has_uninitialized_params l' = has_uninitialized_params l
  /\ out_channels l' = out_channels l
  /\ K l' = K l
  /\ _W_initializer l' = _W_initializer l
  /\ same_value (W l') (fresh_W l c w).
Proof.
  unfold lazily. destruct cuda_available; [rewrite on_gpu_eq |];
    cbn; unfold same_value; repeat split; reflexivity.
Qed.

(** C1 (the code differs).  [has_uninitialized_params] is set by the
    constructor and never cleared, so a link constructed with
    [in_channels = None] creates a new weight at every forward call that gets
    as far (an input with a channel axis, a weight that can be built): after
    the second call [W] is another object than after the first, allocated
    during the second call, with the channel count of the second input. *)

Theorem lazy_link_recreates_W_at_every_call
  (out : Z) (A : Graph) (k : Z) (bias : Float) (nobias : bool)
  (initialW initial_bias : option InitValue) (w0 w1 : World)
  (l : GraphConvolution) (x1 x2 : Var) (c1 c2 : Z) :
  GraphConvolution_init None out A k bias nobias initialW initial_bias w0
    = (w1, inr l) ->
  channels x1 = inr c1 ->
  channels x2 = inr c2 ->
  generate (_get_initializer initialW) [out; c1; k] = inr tt ->
  generate (_get_initializer initialW) [out; c2; k] = inr tt ->
  let s1 := fst (GraphConvolution_call x1 (l, w1)) in
  let s2 := fst (GraphConvolution_call x2 s1) in
  has_uninitialized_params (fst s1) = true
  /\ p_shape (W (fst s1)) = Some [out; c1; k]
  /\ p_shape (W (fst s2)) = Some [out; c2; k]
  /\ p_id (W (fst s2)) = S (p_id (W (fst s1)))
  /\ count is_new_parameter (snd s2) = S (count is_new_parameter (snd s1)).
Proof.
  intros Hinit H1 H2 G1 G2.
  destruct (init_built _ _ _ _ _ _ _ _ _ _ _ Hinit) as (L & _ & Hb).
  unfold built in Hb. injection Hb as _ Hl.
  assert (Hu : has_uninitialized_params l = true) by (rewrite <- Hl; reflexivity).
  assert (Ho : out_channels l = out) by (rewrite <- Hl; reflexivity).
  assert (Hk : K l = k) by (rewrite <- Hl; reflexivity).
  assert (Hi : _W_initializer l = _get_initializer initialW)
    by (rewrite <- Hl; reflexivity).
  clear Hl Hinit.
  assert (W1 : weight_of l c1 = inr tt)
    by (unfold weight_of; rewrite Hi, Ho, Hk; exact G1).
  cbn zeta. rewrite (call_lazy x1 l w1 c1 Hu H1 W1). cbn [filtered fst snd].
  destruct (lazily_attributes l c1 w1) as (A1 & A2 & A3 & A4 & A5 & A6 & A7).
  cbn zeta in *.
  set (l1 := lazily l c1 w1) in *.
  assert (W2 : weight_of l1 c2 = inr tt)
    by (unfold weight_of; rewrite A4, A2, A3, Hi, Ho, Hk; exact G2).
  rewrite (call_lazy x2 l1 _ c2 (eq_trans A1 Hu) H2 W2). cbn [filtered fst snd].
  destruct (lazily_attributes l1 c2
              (logged (EvForward (func l1) x1 (W l1) (b l1))
                      (allocated (fresh_W l c1 w1) w1)))
    as (B1 & B2 & B3 & B4 & B5 & B6 & B7).
  cbn zeta in *.
  split; [congruence |].
  split; [rewrite A7; cbn; congruence |].
  split; [rewrite B7; cbn; congruence |].
  split; [rewrite B5, A5; reflexivity |].
  rewrite !count_logged, !count_allocated, !count_logged, !count_allocated.
  cbn [is_new_parameter]. lia.
Qed.

(** C9, as the code has it.  The first forward call of a link constructed
    with [in_channels = None] first reads [x.shape[1]] and creates [W] for
    that channel count.  If the input has no channel axis, or the weight
    cannot be built, the call raises that exception and changes nothing,
    with or without CUDA.  Otherwise, with CUDA the call moves the whole
    link to the current GPU: the new [W], the bias if there is one and the
    buffers of the filter function, values unchanged, and the link is marked
    as being on that device; without CUDA it only sets [W], which stays on
    the CPU as do [b] and [func]. *)

Theorem first_call_of_lazy_link
  (out : Z) (A : Graph) (k : Z) (bias : Float) (nobias : bool)
  (initialW initial_bias : option InitValue) (w0 w1 : World)
  (l : GraphConvolution) (x : Var) (w : World) :
  GraphConvolution_init None out A k bias nobias initialW initial_bias w0
    = (w1, inr l) ->
  let r := GraphConvolution_call x (l, w) in
  let l' := fst (fst r) in
  match channels x with
  | inl e => r = ((l, w), inl e)
  | inr c =>
      match generate (_get_initializer initialW) [out; c; k] with
      | inl e => r = ((l, w), inl e)
      | inr _ =>
          same_value (W l') (fresh_W l c w)
          /\ p_shape (W l') = Some [out; c; k]
          /\ if cuda_available then
               p_device (W l') = Gpu current_device
               /\ b l' = option_map (Parameter_to_gpu current_device) (b l)
               /\ func l' = Function_to_gpu current_device (func l)
               /\ _cpu l' = false
               /\ _device_id l' = Some current_device
             else
               l' = set_W (fresh_W l c w) l
               /\ p_device (W l') = Cpu
               /\ b l' = b l
               /\ func l' = func l
               /\ f_device (func l') = Cpu
               /\ _cpu l' = true
      end
  end.
Proof.
  intros Hinit.
  destruct (init_built _ _ _ _ _ _ _ _ _ _ _ Hinit) as (L & _ & Hb).
  unfold built in Hb. injection Hb as _ Hl.
  assert (Hu : has_uninitialized_params l = true) by (rewrite <- Hl; reflexivity).
  assert (Ho : out_channels l = out) by (rewrite <- Hl; reflexivity).
  assert (Hk : K l = k) by (rewrite <- Hl; reflexivity).
  assert (Hi : _W_initializer l = _get_initializer initialW)
    by (rewrite <- Hl; reflexivity).
  assert (Hcpu : _cpu l = true) by (rewrite <- Hl; reflexivity).
  assert (Hid : _device_id l = None) by (rewrite <- Hl; reflexivity).
  assert (Hf : f_device (func l) = Cpu) by (rewrite <- Hl; reflexivity).
  clear Hl Hinit. cbn zeta.
  destruct (channels x) as [e | c] eqn:Hc.
  { apply call_refused; [exact Hu | rewrite Hc; reflexivity]. }
  assert (Hw : weight_of l c = generate (_get_initializer initialW) [out; c; k])
    by (unfold weight_of; rewrite Hi, Ho, Hk; reflexivity).
  destruct (generate (_get_initializer initialW) [out; c; k]) as [e | []] eqn:Hg.
  { apply call_refused; [exact Hu | rewrite Hc; exact Hw]. }
  rewrite (call_lazy x l w c Hu Hc Hw). cbn [filtered fst].
  destruct (lazily_attributes l c w) as (_ & _ & _ & _ & Hv).
  cbn zeta in Hv.
  split; [exact Hv |].
  split; [destruct Hv as (_ & _ & ->); cbn; congruence |].
  unfold lazily. destruct cuda_available.
  - rewrite on_gpu_eq. cbn [W b func _cpu _device_id set_W].
    rewrite Hid, Hcpu. cbn [resolve].
    repeat split; reflexivity.
  - cbn [W b func _cpu set_W fresh_W p_device].
    repeat split; assumption || reflexivity.
Qed.

(** C6 (the code differs).  [to_gpu] moves [W], [b] and the buffers of the
    filter function to one GPU, values unchanged.  [to_cpu] moves only the
    buffers of the filter function: the parameters are not registered with
    the base class and [to_cpu], unlike [to_gpu], does not move them itself,
    so after [to_gpu(); to_cpu()] the parameters are on the GPU and the
    Laplacian on the CPU. *)

Theorem to_cpu_leaves_parameters_on_gpu
  (in_channels : option Z) (out : Z) (A : Graph) (k : Z) (bias : Float)
  (nobias : bool) (initialW initial_bias : option InitValue) (w0 w1 : World)
  (l : GraphConvolution) (device : option nat) (w : World) :
  cuda_available = true ->
  GraphConvolution_init in_channels out A k bias nobias initialW initial_bias w0
    = (w1, inr l) ->
  let d := resolve device in
  let s1 := fst (GraphConvolution_to_gpu device (l, w)) in
  let s2 := fst (GraphConvolution_to_cpu s1) in
  (W (fst s1) = Parameter_to_gpu d (W l)
   /\ b (fst s1) = option_map (Parameter_to_gpu d) (b l)
   /\ func (fst s1) = Function_to_gpu d (func l))
  /\ (p_device (W (fst s2)) = Gpu d
      /\ (forall p, b (fst s2) = Some p -> p_device p = Gpu d)
      /\ (nobias = false -> exists p, b (fst s2) = Some p)
      /\ f_device (func (fst s2)) = Cpu).
Proof.
  intros Hcuda Hinit.
  destruct (init_built _ _ _ _ _ _ _ _ _ _ _ Hinit) as (L & _ & Hb).
  unfold built in Hb. injection Hb as _ Hl.
  assert (Hp : _params l = []) by (rewrite <- Hl; reflexivity).
  assert (Hbias : nobias = false -> exists p, b l = Some p).
  { intros ->. rewrite <- Hl. cbn. eexists. reflexivity. }
  clear Hl Hinit.
  cbn zeta. rewrite to_gpu_spec, Hcuda. cbn [fst].
  rewrite to_cpu_spec. cbn [fst].
  rewrite on_cpu_unregistered by (rewrite on_gpu_eq; exact Hp).
  rewrite on_gpu_eq.
  cbn [W b func _cpu _device_id K out_channels _W_initializer
       has_uninitialized_params].
  split; [repeat split; reflexivity |].
  split; [reflexivity |].
  split.
  { intros p. destruct (b l) as [q |]; cbn; [| discriminate].
    intros [= <-]. reflexivity. }
  split; [| reflexivity].
  intros Hn. destruct (Hbias Hn) as [p ->]. cbn. eexists. reflexivity.
Qed.

(** ** Shapes of the weight and of the bias *)

Definition bias_ok (nobias : bool) (out : Z) (bo : option Param) : Prop :=
  if nobias then bo = None
  else exists p, bo = Some p /\ p_shape p = Some [out].

(** What holds of a link from its construction on. *)

Definition shaped (in_channels : option Z) (out k : Z) (nobias : bool)
  (l : GraphConvolution) : Prop :=
  out_channels l = out
  /\ K l = k
  /\ has_uninitialized_params l
     = match in_channels with None => true | Some _ => false end
  /\ (forall c, in_channels = Some c -> p_shape (W l) = Some [out; c; k])
  /\ bias_ok nobias out (b l).

Lemma bias_ok_to_gpu (nobias : bool) (out : Z) (d : nat) (bo : option Param) :
  bias_ok nobias out bo ->
  bias_ok nobias out (option_map (Parameter_to_gpu d) bo).
Proof.
  unfold bias_ok. destruct nobias.
  - intros ->. reflexivity.
  - intros (p & -> & Hp). exists (Parameter_to_gpu d p). split; [reflexivity | exact Hp].
Qed.

Lemma shaped_init (in_channels : option Z) (out : Z) (A : Graph) (k : Z)
  (bias : Float) (nobias : bool) (initialW initial_bias : option InitValue)
  (w0 w1 : World) (l : GraphConvolution) :
  GraphConvolution_init in_channels out A k bias nobias initialW initial_bias w0
    = (w1, inr l) ->
  shaped in_channels out k nobias l.
Proof.
  intros Hinit.
  destruct (init_built _ _ _ _ _ _ _ _ _ _ _ Hinit) as (L & _ & Hb).
  unfold built in Hb. injection Hb as _ <-.
  unfold shaped. cbn [out_channels K has_uninitialized_params W b].
  repeat split.
  - intros c ->. reflexivity.
  - unfold bias_ok. destruct nobias; [reflexivity |].
    eexists. split; reflexivity.
Qed.

Lemma shaped_lazily (out k : Z) (nobias : bool) (l : GraphConvolution)
  (c : Z) (w : World) :
  shaped None out k nobias l ->
  shaped None out k nobias (lazily l c w)
  /\ p_shape (W (lazily l c w)) = Some [out; c; k].
Proof.
  intros (Ho & Hk & Hu & _ & Hb). unfold lazily, shaped.
  destruct cuda_available; [rewrite on_gpu_eq |];
    cbn [out_channels K has_uninitialized_params W b set_W fresh_W
         Parameter_to_gpu p_shape];
    (repeat split; try assumption; try discriminate; try congruence).
  apply bias_ok_to_gpu. exact Hb.
Qed.

(** One forward call of a link constructed with [None]: it stops before the
    filter, leaving everything as it was, or it creates the weight for the
    channels of its input. *)

Lemma lazy_call_cases (x : Var) (l : GraphConvolution) (w : World) :
  has_uninitialized_params l = true ->
  (exists e, GraphConvolution_call x (l, w) = ((l, w), inl e))
  \/ (exists c, GraphConvolution_call x (l, w)
                = filtered x (lazily l c w) (allocated (fresh_W l c w) w)).
Proof.
  intros Hu.
  destruct (channels x) as [e | c] eqn:Hc.
  { left. exists e. apply call_refused; [exact Hu | rewrite Hc; reflexivity]. }
  destruct (weight_of l c) as [e | []] eqn:Hg.
  { left. exists e. apply call_refused; [exact Hu | rewrite Hc; exact Hg]. }
  right. exists c. apply call_lazy; assumption.
Qed.

Lemma shaped_call (in_channels : option Z) (out k : Z) (nobias : bool)
  (x : Var) (l : GraphConvolution) (w : World) :
  shaped in_channels out k nobias l ->
  shaped in_channels out k nobias (fst (fst (GraphConvolution_call x (l, w)))).
Proof.
  intros Hs. pose proof Hs as (_ & _ & Hu & _).
  destruct in_channels as [c0 |].
  - rewrite (call_initialized x l w Hu). exact Hs.
  - destruct (lazy_call_cases x l w Hu) as [[e ->] | [c ->]].
    + exact Hs.
    + cbn [filtered fst]. apply shaped_lazily. exact Hs.
Qed.

Lemma shaped_calls (in_channels : option Z) (out k : Z) (nobias : bool)
  (xs : list Var) (l : GraphConvolution) (w : World) :
  shaped in_channels out k nobias l ->
  shaped in_channels out k nobias (fst (forward_calls xs (l, w))).
Proof.
  revert l w. induction xs as [| x xs IH]; intros l w Hs; [exact Hs |].
  rewrite forward_calls_cons.
  pose proof (shaped_call in_channels out k nobias x l w Hs) as Hs'.
  destruct (GraphConvolution_call x (l, w)) as [[l' w'] r].
  apply IH. exact Hs'.
Qed.

(** C5, as the code has it.  A link constructed with a concrete
    [in_channels] holds a weight of shape [(out_channels, in_channels, K)];
    one constructed with [None] holds a weight without a shape until a
    forward call creates one, and its first forward call, on an input with
    a channel axis for which the weight can be built, gives [W] the shape
    [(out_channels, x.shape[1], K)].  The bias has shape [(out_channels,)]
    when [nobias] is false and is absent when it is true.  Every forward
    call, after any earlier calls, either stops before the filter and
    changes nothing, which only a link constructed with [None] can do, or
    applies the filter function to the input, to the weight of the link,
    which then has shape [(out_channels, c, K)] for some [c], the
    constructor's [in_channels] when there is one, and to the bias of the
    link: none when [nobias] is true. *)

Theorem weight_and_bias_shapes
  (in_channels : option Z) (out : Z) (A : Graph) (k : Z) (bias : Float)
  (nobias : bool) (initialW initial_bias : option InitValue) (w0 w1 : World)
  (l : GraphConvolution) :
  GraphConvolution_init in_channels out A k bias nobias initialW initial_bias w0
    = (w1, inr l) ->
  p_shape (W l) = option_map (fun c => [out; c; k]) in_channels
  /\ bias_ok nobias out (b l)
  /\ (forall (x : Var) (w : World) (c : Z),
        in_channels = None ->
        channels x = inr c ->
        generate (_get_initializer initialW) [out; c; k] = inr tt ->
        p_shape (W (fst (fst (GraphConvolution_call x (l, w)))))
        = Some [out; c; k])
  /\ forall (xs : list Var) (x : Var) (w : World),
       let s := forward_calls xs (l, w) in
       let r := GraphConvolution_call x s in
       let l' := fst (fst r) in
       (in_channels = None /\ exists e, r = (s, inl e))
       \/ (exists c,
             p_shape (W l') = Some [out; c; k]
             /\ (forall c0, in_channels = Some c0 -> c = c0)
             /\ bias_ok nobias out (b l')
             /\ (exists t, trace (snd (fst r))
                           = t ++ [EvForward (func l') x (W l') (b l')])
             /\ snd r = graph_convolution (func l') x (W l') (b l')).
Proof.
  intros Hinit. pose proof (shaped_init _ _ _ _ _ _ _ _ _ _ _ Hinit) as Hs.
  destruct (init_built _ _ _ _ _ _ _ _ _ _ _ Hinit) as (L & _ & Hb).
  unfold built in Hb. injection Hb as _ Hl.
  split; [rewrite <- Hl; destruct in_channels; reflexivity |].
  split; [apply Hs |].
  split.
  { intros x w c -> Hc Hg.
    pose proof Hs as (Ho & Hk & Hu & _).
    assert (Hi : _W_initializer l = _get_initializer initialW)
      by (rewrite <- Hl; reflexivity).
    assert (Hw : weight_of l c = inr tt)
      by (unfold weight_of; rewrite Hi, Ho, Hk; exact Hg).
    rewrite (call_lazy x l w c Hu Hc Hw). cbn [filtered fst].
    apply (shaped_lazily out k nobias l c w Hs). }
  clear Hl Hinit.
  intros xs x w. cbn zeta.
  pose proof (shaped_calls in_channels out k nobias xs l w Hs) as Hs'.
  destruct (forward_calls xs (l, w)) as [l1 wa]. cbn [fst] in Hs'.
  pose proof Hs' as (Ho & Hk & Hu & HW & Hbias).
  destruct in_channels as [c0 |].
  - right. exists c0. rewrite call_spec, Hu. cbn [filtered fst snd logged trace].
    split; [apply HW; reflexivity |].
    split; [intros c1 [= <-]; reflexivity |].
    split; [exact Hbias |].
    split; [eexists; reflexivity | reflexivity].
  - destruct (lazy_call_cases x l1 wa Hu) as [[e ->] | [c ->]].
    + left. split; [reflexivity |]. exists e. reflexivity.
    + right. exists c. cbn [filtered fst snd logged trace].
      destruct (shaped_lazily out k nobias l1 c wa Hs') as [Hs2 HW2].
      split; [exact HW2 |].
      split; [discriminate |].
      split; [apply Hs2 |].
      split; [eexists; reflexivity | reflexivity].
Qed.

End GraphConvolutionTheorems.

(** * Properties of the model *)

Section GraphCNNTheorems.

Context {C : Carriers} {P : Platform}.



(** The link that [GraphConvolution(None, s, g, K=25)] returns. *)



(** The bias of a layer of the model, a constant vector of 32 or 64
    entries, can always be built, so that constructing a layer fails only
    where [create_laplacian] does. *)



(** C4.  [GraphCNN(A, n_out)] coarsens [A] with [levels = 4] and combines
    the result with factor 2.  When [coarsen] returns 4 + 1 graphs and 4
    maps, and [combine] returns half as many maps and one graph more than
    maps, the constructor either raises what [create_laplacian] raises on
    one of the first two combined graphs, or returns a model with exactly
    two (link, pooling) pairs, the links deferred ([in_channels = None])
    with 32 and 64 output channels and [K = 25] on the first two combined
    graphs, the pooling functions on the two combined maps, followed by one
    [Linear(None, 512)] and the classifier [Linear(None, n_out)]. *)


(** ** The forward pass *)

Lemma call_without_labels (x : Var) (s : GraphCNN * World) :
  GraphCNN_call x [] s = network x s.
Proof.
  unfold GraphCNN_call, bind, ret.
  destruct (network x s) as [s' [e | h]]; reflexivity.
Qed.

Lemma call_with_labels (x : Var) (labels : Labels) (rest : list Labels)
  (s : GraphCNN * World) :
  GraphCNN_call x (labels :: rest) s =
  match network x s with
  | (s', inl e) => (s', inl e)
  | (s', inr h) =>
      match softmax_cross_entropy h labels with
      | inl e => (s', inl e)
      | inr loss =>
          match accuracy h labels with
          | inl e => (s', inl e)
          | inr acc => ((fst s', logged (EvReport loss acc) (snd s')), inr loss)
          end
      end
  end.
Proof.
  unfold GraphCNN_call. unfold bind at 1.
  destruct (network x s) as [s' [e | h]]; [reflexivity |].
  unfold bind at 1. unfold lift at 1.
  destruct (softmax_cross_entropy h labels) as [e | loss]; [reflexivity |].
  unfold bind at 1. unfold lift at 1.
  destruct (accuracy h labels) as [e | acc]; reflexivity.
Qed.

(** C8.  Called on [x] alone the model returns the scores [h] of the
    network.  Called on [x] and labels it runs the same network from the same
    state, leaving the same model, and returns the softmax cross entropy of
    those scores and the labels; the accuracy only goes into the report.  An
    exception of the network, of the loss or of the accuracy is raised in
    place of the result. *)


(** The [train] attribute is not read by the loops. *)

Lemma network_train (t : bool) (x : Var) (m : GraphCNN) (w : World) :
  network x (set_train t m, w) =
  let r := network x (m, w) in
  ((set_train t (fst (fst r)), snd (fst r)), snd r).
Proof.
  destruct m as [gl0 ll0 cl0 t0 d0].
  unfold network, bind, zoom.
  cbn [fst snd set_train graph_layers linear_layers cls_layer train __dict__].
  destruct (apply_graph_layers gl0 x w) as [[gl w1] [e | h]]; [reflexivity |].
  cbn [fst snd set_train set_graph_layers graph_layers linear_layers cls_layer
       train __dict__].
  destruct (apply_linear_layers ll0 h w1) as [[ll w2] [e | h']]; [reflexivity |].
  cbn [fst snd set_train set_graph_layers set_linear_layers graph_layers
       linear_layers cls_layer train __dict__].
  destruct (call_linear h' (cl0, w2)) as [[cl w3] r].
  reflexivity.
Qed.

(** C10.  Two model states that differ only in [train] give, on the same
    input, arguments and world (hence the same dropout randomness), the same
    result and the same world, and leave models that again differ only in
    [train]; and each linear layer draws its dropout with ratio 1/2, with no
    condition. *)

Theorem train_flag_is_never_read
  (gl : list (GraphConvolution * GraphMaxPoolingFunction)) (ll : list Linear)
  (cl : Linear) (d : list (string * LayerRef)) (t1 t2 : bool)
  (x : Var) (args : list Labels) (w : World) :
  let r1 := GraphCNN_call x args (mkGraphCNN gl ll cl t1 d, w) in
  let r2 := GraphCNN_call x args (mkGraphCNN gl ll cl t2 d, w) in
  snd r1 = snd r2
  /\ snd (fst r1) = snd (fst r2)
  /\ fst (fst r2) = set_train t2 (fst (fst r1))
  /\ train (fst (fst r1)) = t1
  /\ forall (f : Linear) (rest : list Linear) (h : Var) (w' : World),
       apply_linear_layers (f :: rest) h w' =
       match linear f h with
       | (f', inl e) => ((f' :: rest, w'), inl e)
       | (f', inr y) =>
           let gd := dropout (rng w') y (1 # 2)%Q in
           let r := apply_linear_layers rest (relu (snd gd))
                      (mkWorld (next_id w') (fst gd) (trace w')) in
           ((f' :: fst (fst r), snd (fst r)), snd r)
       end.
Proof.
  cbn zeta.
  assert (H : forall t,
            GraphCNN_call x args (mkGraphCNN gl ll cl t d, w) =
            let r := GraphCNN_call x args (mkGraphCNN gl ll cl true d, w) in
            ((set_train t (fst (fst r)), snd (fst r)), snd r)).
  { intros t. change (mkGraphCNN gl ll cl t d)
      with (set_train t (mkGraphCNN gl ll cl true d)).
    destruct args as [| labels rest].
    - rewrite !call_without_labels, network_train. reflexivity.
    - rewrite !call_with_labels, network_train. cbn zeta.
      destruct (network x (mkGraphCNN gl ll cl true d, w)) as [[m' w'] [e | h]];
        cbn [fst snd]; [reflexivity |].
      destruct (softmax_cross_entropy h labels); [reflexivity |].
      destruct (accuracy h labels); reflexivity. }
  rewrite (H t1), (H t2). cbn zeta. cbn [fst snd].
  repeat split.
  intros f rest h w'. cbn [apply_linear_layers]. unfold draw_dropout, dropout_ratio.
  destruct (linear f h) as [f' [e | y]]; [reflexivity |].
  destruct (dropout (rng w') y (1 # 2)%Q) as [g dd]. cbn [fst snd].
  destruct (apply_linear_layers rest (relu dd) _) as [[rest' w''] r]. reflexivity.
Qed.

End GraphCNNTheorems.

(** * A platform to run the model on

    A small implementation of the interface, on which the constructors and
    the forward passes compute.  Arrays are reduced to their shapes. *)

Module Sample.

#[local] Instance carriers : Carriers := {|
  Var := list Z;
  shape := fun x => x;
  Graph := list (list Z);
  Laplacian := list (list Z);
  PoolingInds := list nat;
  Labels := list Z;
  InitValue := Float;
  Initializer := option Float;
  Rng := nat
|}.

Definition entry (A : list (list Z)) (i j : nat) : Z :=
  nth j (nth i A []) 0.

Definition square (A : list (list Z)) : bool :=
  forallb (fun row => Nat.eqb (List.length row) (List.length A)) A.

Definition nonnegative (A : list (list Z)) : bool :=
  forallb (forallb (fun a => 0 <=? a)) A.

Definition symmetric (A : list (list Z)) : bool :=
  let n := List.length A in
  forallb (fun i => forallb (fun j => entry A i j =? entry A j i) (seq 0 n))
    (seq 0 n).

Definition degree (row : list Z) : Z := fold_right Z.add 0 row.

(** Modelled from the spec: lib/graph.py is not among the sources.  The
    failure cases are those of the spec (4.1): a matrix that is not square,
    has a negative weight or is not symmetric.  The matrix returned is the
    integer Laplacian [D - A]; normalizing and rescaling it need real
    arithmetic and play no part below. *)

Definition sample_laplacian (A : list (list Z)) : Exn + list (list Z) :=
  if square A && nonnegative A && symmetric A then
    let n := List.length A in
    inr (map (fun i =>
           map (fun j =>
             (if Nat.eqb i j then degree (nth i A []) else 0) - entry A i j)
             (seq 0 n))
           (seq 0 n))
  else inl InvalidGraphError.

(** Modelled from the spec: lib/coarsening.py is not among the sources.  Of
    the spec (4.2, 4.3) only the lengths and the failure cases are kept:
    [coarsen] returns [levels + 1] graphs and [levels] maps, and does no
    matching; [combine] keeps every [factor]-th graph and joins each group of
    [factor] maps. *)

Definition sample_coarsen (A : list (list Z)) (levels : Z)
  : Exn + (list (list (list Z)) * list (list nat)) :=
  if levels <? 0 then inl InvalidGraphError
  else inr (repeat A (S (Z.to_nat levels)),
            repeat (seq 0 (List.length A)) (Z.to_nat levels)).

Fixpoint every {X : Type} (fuel n : nat) (xs : list X) : list X :=
  match fuel, xs with
  | S fuel', x :: _ => x :: every fuel' n (skipn n xs)
  | _, _ => []
  end.

Fixpoint groups {X : Type} (fuel n : nat) (xs : list (list X)) : list (list X) :=
  match fuel, xs with
  | S fuel', _ :: _ => List.concat (firstn n xs) :: groups fuel' n (skipn n xs)
  | _, _ => []
  end.

Definition sample_combine (graphs : list (list (list Z)))
  (pooling_inds : list (list nat)) (factor : Z)
  : Exn + (list (list (list Z)) * list (list nat)) :=
  if (factor <=? 0) || negb (Z.of_nat (List.length pooling_inds) mod factor =? 0)
  then inl ConfigurationError
  else
    let n := Z.to_nat factor in
    inr (every (List.length graphs) n graphs,
         groups (List.length pooling_inds) n pooling_inds).

Definition device_eqb (d e : Device) : bool :=
  match d, e with
  | Cpu, Cpu => true
  | Gpu i, Gpu j => Nat.eqb i j
  | _, _ => false
  end.

(** The filter on shapes: [(batch, in_channels, N)] to
    [(batch, out_channels, N)], with the failures of the spec (4.4). *)

Definition sample_convolution (f : GraphConvolutionFunction) (x : list Z)
  (W : Param) (b : option Param) : Exn + list Z :=
  match x, p_shape W with
  | [n; c; N], Some [o; c'; _] =>
      if negb (c =? c') then inl ShapeError
      else if negb (device_eqb (p_device W) (f_device f))
           then inl DeviceMismatchError
           else inr [n; o; N]
  | _, _ => inl ShapeError
  end.

Definition sample_pooling (p : GraphMaxPoolingFunction) (x : list Z)
  : Exn + list Z :=
  match x with
  | [n; c; N] => inr [n; c; N]
  | _ => inl ShapeError
  end.

Definition sample_linear (f : Linear) (x : list Z) : Linear * (Exn + list Z) :=
  match x with
  | n :: rest =>
      let size := fold_right Z.mul 1 rest in
      match in_size f with
      | Some i =>
          if i =? size then (f, inr [n; out_size f]) else (f, inl ShapeError)
      | None => (mkLinear (Some size) (out_size f), inr [n; out_size f])
      end
  | [] => (f, inl ShapeError)
  end.

(** Arrays of up to 2^31 - 1 entries can be held, and the initializers,
    scalars or the default, fill any of them. *)

Definition sample_generate (init : option Float) (shp : list Z) : Exn + unit :=
  if fold_right Z.mul 1 shp <=? 2147483647 then inr tt else inl ValueError.

Lemma sample_constant_vector (c : Float) (n : Z) :
  0 <= n <= 65536 -> sample_generate (Some c) [n] = inr tt.
Proof.
  intros H. unfold sample_generate. cbn [fold_right].
  assert (Hn : (n * 1 <=? 2147483647) = true) by (apply Z.leb_le; lia).
  rewrite Hn. reflexivity.
Qed.

Definition platform (cuda : bool) : Platform := {|
  scalar := fun c => c;
  _get_initializer := fun v => v;
  generate_array := sample_generate;
  constant_vector := sample_constant_vector;
  cuda_available := cuda;
  current_device := 0%nat;
  create_laplacian := sample_laplacian;
  coarsen := sample_coarsen;
  combine := sample_combine;
  graph_convolution := sample_convolution;
  graph_max_pooling := sample_pooling;
  linear := sample_linear;
  relu := fun x => x;
  dropout := fun g y _ => (S g, y);
  softmax_cross_entropy := fun _ _ => inr [];
  accuracy := fun _ _ => inr []
|}.

(** The graph of the repository's test, a world with nothing in it, and a
    matrix that is not square. *)

Definition test_graph : Graph :=
  [[0; 1; 1; 0]; [1; 0; 0; 1]; [1; 0; 0; 0]; [0; 1; 0; 0]].

Definition not_square : Graph := [[0; 1]].

Definition empty_world : World := mkWorld 0 0%nat [].

Definition batch (c : Z) : Var := [32; c; 4].

(** What [coarsen(test_graph, 4)] and then [combine(..., 2)] return here. *)

Definition levels4 : list Graph * list PoolingInds :=
  (repeat test_graph 5, repeat [0; 1; 2; 3]%nat 4).

Definition combined2 : list Graph * list PoolingInds :=
  (repeat test_graph 3, repeat [0; 1; 2; 3; 0; 1; 2; 3]%nat 2).

(** ** The theorems at work *)

Lemma init_raises_laplacian_error_witness :
  create_laplacian (Platform := platform false) not_square = inl InvalidGraphError
  /\ GraphConvolution_init (P := platform false)
       (Some 3) 2 not_square 2 0%Q false None None empty_world
     = (mkWorld 0 0%nat [EvCreateLaplacian not_square], inl InvalidGraphError).
Proof.
  split; [reflexivity |].
  exact (init_raises_laplacian_error (P := platform false)
           (Some 3) 2 not_square 2 0%Q false None None empty_world
           InvalidGraphError eq_refl).
Defined.

Lemma initialized_link_unchanged_by_calls_witness :
  exists (w1 : World) (l : GraphConvolution),
    GraphConvolution_init (P := platform false)
      (Some 1) 32 test_graph 25 0%Q false None None empty_world = (w1, inr l)
    /\ forall (xs : list Var) (w : World),
         fst (forward_calls (P := platform false) xs (l, w)) = l.
Proof.
  eexists. eexists. split; [vm_compute; reflexivity |].
  exact (initialized_link_unchanged_by_calls (P := platform false)
           1 32 test_graph 25 0%Q false None None empty_world _ _ eq_refl).
Defined.

Lemma laplacian_computed_once_witness :
  exists (w1 : World) (l : GraphConvolution),
    GraphConvolution_init (P := platform true)
      None 32 test_graph 25 0%Q false None None empty_world = (w1, inr l)
    /\ exists L : Laplacian,
         create_laplacian (Platform := platform true) test_graph = inr L
         /\ func l = mkFunction L 25 Cpu
         /\ count is_laplacian w1 = 1%nat
         /\ count is_new_function w1 = 1%nat
         /\ forall (xs : list Var) (w : World),
              let s := forward_calls (P := platform true) xs (l, w) in
              f_L (func (fst s)) = L
              /\ count is_laplacian (snd s) = count is_laplacian w
              /\ count is_new_function (snd s) = count is_new_function w.
Proof.
  eexists. eexists. split; [vm_compute; reflexivity |].
  destruct (laplacian_computed_once (P := platform true)
              None 32 test_graph 25 0%Q false None None empty_world _ _ eq_refl)
    as (L & HL & Hf & H1 & H2 & _ & _ & Hcalls).
  exists L. repeat split; try assumption.
  - apply (Hcalls xs w).
  - apply (Hcalls xs w).
  - apply (Hcalls xs w).
Defined.

Lemma lazy_link_recreates_W_at_every_call_witness :
  exists (w1 : World) (l : GraphConvolution),
    GraphConvolution_init (P := platform false)
      None 32 test_graph 25 0%Q false None None empty_world = (w1, inr l)
    /\ channels (batch 1) = inr 1
    /\ generate (P := platform false) None [32; 1; 25] = inr tt
    /\ let s1 := fst (GraphConvolution_call (P := platform false) (batch 1) (l, w1)) in
       let s2 := fst (GraphConvolution_call (P := platform false) (batch 1) s1) in
       p_id (W (fst s1)) = 2%nat /\ p_id (W (fst s2)) = 3%nat
       /\ p_id (W (fst s2)) = S (p_id (W (fst s1)))
       /\ has_uninitialized_params (fst s1) = true.
Proof.
  eexists. eexists. split; [vm_compute; reflexivity |].
  split; [reflexivity |]. split; [reflexivity |].
  destruct (lazy_link_recreates_W_at_every_call (P := platform false)
              32 test_graph 25 0%Q false None None empty_world _ _
              (batch 1) (batch 1) 1 1 eq_refl eq_refl eq_refl eq_refl eq_refl)
    as (Hu & _ & _ & Hid & _).
  cbn zeta. split; [reflexivity |]. split; [reflexivity |].
  split; [exact Hid | exact Hu].
Defined.

Lemma first_call_of_lazy_link_witness :
  (exists (w1 : World) (l : GraphConvolution),
     GraphConvolution_init (P := platform true)
       None 32 test_graph 25 0%Q false None None empty_world = (w1, inr l)
     /\ (let l' := fst (fst (GraphConvolution_call (P := platform true)
                               (batch 1) (l, w1))) in
         p_shape (W l') = Some [32; 1; 25]
         /\ p_device (W l') = Gpu 0
         /\ option_map p_device (b l') = Some (Gpu 0)
         /\ f_device (func l') = Gpu 0)
     /\ GraphConvolution_call (P := platform true) [4] (l, w1)
        = ((l, w1), inl IndexError))
  /\ (exists (w1 : World) (l : GraphConvolution),
        GraphConvolution_init (P := platform false)
          None 32 test_graph 25 0%Q false None None empty_world = (w1, inr l)
        /\ let l' := fst (fst (GraphConvolution_call (P := platform false)
                                 (batch 1) (l, w1))) in
           p_shape (W l') = Some [32; 1; 25]
           /\ p_device (W l') = Cpu
           /\ b l' = b l
           /\ func l' = func l)
  /\ (exists (w1 : World) (l : GraphConvolution),
        GraphConvolution_init (P := platform true)
          None 32 test_graph (-1) 0%Q false None None empty_world = (w1, inr l)
        /\ GraphConvolution_call (P := platform true) (batch 1) (l, w1)
           = ((l, w1), inl ValueError)).
Proof.
  split; [| split].
  - eexists. eexists. split; [vm_compute; reflexivity |].
    split.
    + cbn zeta.
      match goal with
      | |- context [GraphConvolution_call _ (?l, ?w)] =>
          destruct (first_call_of_lazy_link (P := platform true)
                      32 test_graph 25 0%Q false None None empty_world w l
                      (batch 1) w eq_refl)
            as (_ & Hs & Hd & Hb & Hf & _)
      end.
      cbn zeta in *. split; [exact Hs |]. split; [exact Hd |].
      split; [rewrite Hb; reflexivity | rewrite Hf; reflexivity].
    + match goal with
      | |- GraphConvolution_call _ (?l, ?w) = _ =>
          exact (first_call_of_lazy_link (P := platform true)
                   32 test_graph 25 0%Q false None None empty_world w l
                   [4] w eq_refl)
      end.
  - eexists. eexists. split; [vm_compute; reflexivity |].
    cbn zeta.
    match goal with
    | |- context [GraphConvolution_call _ (?l, ?w)] =>
        destruct (first_call_of_lazy_link (P := platform false)
                    32 test_graph 25 0%Q false None None empty_world w l
                    (batch 1) w eq_refl)
          as (_ & Hs & _ & Hd & Hb & Hf & _)
    end.
    cbn zeta in *. split; [exact Hs |]. split; [exact Hd |].
    split; [exact Hb | exact Hf].
  - eexists. eexists. split; [vm_compute; reflexivity |].
    match goal with
    | |- GraphConvolution_call _ (?l, ?w) = _ =>
        exact (first_call_of_lazy_link (P := platform true)
                 32 test_graph (-1) 0%Q false None None empty_world w l
                 (batch 1) w eq_refl)
    end.
Defined.

Lemma to_cpu_leaves_parameters_on_gpu_witness :
  exists (w1 : World) (l : GraphConvolution),
    cuda_available (Platform := platform true) = true
    /\ GraphConvolution_init (P := platform true)
         (Some 1) 32 test_graph 25 0%Q false None None empty_world = (w1, inr l)
    /\ let s1 := fst (GraphConvolution_to_gpu (P := platform true) None (l, w1)) in
       let s2 := fst (GraphConvolution_to_cpu s1) in
       p_device (W (fst s2)) = Gpu 0
       /\ option_map p_device (b (fst s2)) = Some (Gpu 0)
       /\ f_device (func (fst s2)) = Cpu.
Proof.
  eexists. eexists. split; [reflexivity |].
  split; [vm_compute; reflexivity |].
  destruct (to_cpu_leaves_parameters_on_gpu (P := platform true)
              (Some 1) 32 test_graph 25 0%Q false None None empty_world _ _
              None empty_world eq_refl eq_refl)
    as (_ & HW & _ & _ & Hf).
  cbn zeta. split; [reflexivity |]. split; reflexivity.
Defined.

Lemma weight_and_bias_shapes_witness :
  (exists (w1 : World) (l : GraphConvolution),
     GraphConvolution_init (P := platform false)
       (Some 1) 32 test_graph 25 0%Q false None None empty_world = (w1, inr l)
     /\ p_shape (W l) = Some [32; 1; 25]
     /\ bias_ok false 32 (b l)
     /\ forall (xs : list Var) (x : Var) (w : World),
          let s := forward_calls (P := platform false) xs (l, w) in
          let r := GraphConvolution_call (P := platform false) x s in
          let l' := fst (fst r) in
          p_shape (W l') = Some [32; 1; 25]
          /\ bias_ok false 32 (b l')
          /\ snd r = graph_convolution (Platform := platform false)
                       (func l') x (W l') (b l'))
  /\ (exists (w1 : World) (l : GraphConvolution),
        GraphConvolution_init (P := platform false)
          None 32 test_graph 25 0%Q true None None empty_world = (w1, inr l)
        /\ p_shape (W l) = None
        /\ b l = None
        /\ channels (batch 3) = inr 3
        /\ generate (P := platform false) None [32; 3; 25] = inr tt
        /\ p_shape (W (fst (fst (GraphConvolution_call (P := platform false)
                                   (batch 3) (l, w1)))))
           = Some [32; 3; 25]).
Proof.
  split.
  - eexists. eexists. split; [vm_compute; reflexivity |].
    destruct (weight_and_bias_shapes (P := platform false)
                (Some 1) 32 test_graph 25 0%Q false None None empty_world _ _
                eq_refl)
      as (HW & Hb & _ & Hcalls).
    split; [exact HW |]. split; [exact Hb |].
    intros xs x w.
    destruct (Hcalls xs x w) as [[H _] | (c & H1 & Hc & H2 & _ & H4)];
      [discriminate H |].
    cbn zeta. rewrite (Hc 1 eq_refl) in H1.
    split; [exact H1 |]. split; [exact H2 | exact H4].
  - eexists. eexists. split; [vm_compute; reflexivity |].
    match goal with
    | |- context [GraphConvolution_call _ (?l, ?w)] =>
        destruct (weight_and_bias_shapes (P := platform false)
                    None 32 test_graph 25 0%Q true None None empty_world w l
                    eq_refl)
          as (HW & Hb & Hfirst & _);
        pose proof (Hfirst (batch 3) w 3 eq_refl eq_refl eq_refl) as H3
    end.
    split; [exact HW |]. split; [exact Hb |].
    split; [reflexivity |]. split; [reflexivity |]. exact H3.
Defined.


(** A link constructed with [in_channels = None] holds, until its first
    forward call, a weight that has no shape at all. *)

Lemma lazy_weight_has_no_shape :
  exists (w1 : World) (l : GraphConvolution),
    GraphConvolution_init (P := platform false)
      None 32 test_graph 25 0%Q false None None empty_world = (w1, inr l)
    /\ ~ (exists c : Z, p_shape (W l) = Some [out_channels l; c; K l]).
Proof.
  eexists. eexists. split; [vm_compute; reflexivity |].
  intros [c H]. discriminate H.
Qed.

(** With CUDA, the first forward call of a link constructed with
    [in_channels = None], on a vector, which has no channel axis, raises
    [IndexError] and transfers nothing: the weight is the uninitialized one
    of the constructor, and it, the bias and the buffers of the filter
    function are on the CPU. *)

Lemma first_call_on_a_vector_transfers_nothing :
  exists (w1 : World) (l : GraphConvolution),
    cuda_available (Platform := platform true) = true
    /\ GraphConvolution_init (P := platform true)
         None 32 test_graph 25 0%Q false None None empty_world = (w1, inr l)
    /\ let r := GraphConvolution_call (P := platform true) [4] (l, w1) in
       let l' := fst (fst r) in
       snd r = inl IndexError
       /\ p_shape (W l') = None
       /\ ~ p_device (W l') = Gpu 0
       /\ ~ option_map p_device (b l') = Some (Gpu 0)
       /\ ~ f_device (func l') = Gpu 0.
Proof.
  eexists. eexists. split; [reflexivity |].
  split; [vm_compute; reflexivity |].
  cbn zeta. repeat split; try reflexivity; intros H; discriminate H.
Qed.

(** The model of the test, run on one batch of 32 signals with one channel
    on the four nodes: the scores have shape (32, 2). *)

Example test_model_scores :
  match GraphCNN_init (P := platform false) test_graph 2 empty_world with
  | (w, inr m) =>
      snd (GraphCNN_call (P := platform false) (batch 1) [] (m, w)) = inr [32; 2]
  | (_, inl _) => False
  end.
Proof. vm_compute. reflexivity. Qed.

End Sample.

(** * Further properties of the link *)

Section GraphConvolutionFrame.

Context {C : Carriers} {P : Platform}.

Definition is_forward (e : Event) : bool :=
  match e with EvForward _ _ _ _ => true | _ => false end.

Definition is_report (e : Event) : bool :=
  match e with EvReport _ _ => true | _ => false end.

(** Any use of a link: forward calls, transfers, and
    [_initialize_params] called from outside. *)

Inductive Op : Type :=
| DoCall (x : Var)
| DoToCpu
| DoToGpu (device : option nat)
| DoInitialize (in_channels : Z).

Definition run_op (o : Op) (s : GraphConvolution * World)
  : GraphConvolution * World :=
  match o with
  | DoCall x => fst (GraphConvolution_call x s)
  | DoToCpu => fst (GraphConvolution_to_cpu s)
  | DoToGpu device => fst (GraphConvolution_to_gpu device s)
  | DoInitialize c => fst (GraphConvolution_initialize_params c s)
  end.

Definition run_ops (ops : list Op) (s : GraphConvolution * World)
  : GraphConvolution * World :=
  fold_left (fun s o => run_op o s) ops s.

(** Two bias attributes holding the same object with the same value. *)

Definition same_bias (bo bo' : option Param) : Prop :=
  match bo, bo' with
  | None, None => True
  | Some p, Some q => same_value q p
  | _, _ => False
  end.

(** What no method touches. *)

Definition kept (l l' : GraphConvolution) : Prop :=
  has_uninitialized_params l' = has_uninitialized_params l
  /\ K l' = K l
  /\ out_channels l' = out_channels l
  /\ _W_initializer l' = _W_initializer l
  /\ _params l' = _params l
  /\ same_bias (b l) (b l')
  /\ f_L (func l') = f_L (func l)
  /\ f_K (func l') = f_K (func l).

Lemma same_bias_refl (bo : option Param) : same_bias bo bo.
Proof. destruct bo; cbn; unfold same_value; auto. Qed.

Lemma same_bias_trans (b1 b2 b3 : option Param) :
  same_bias b1 b2 -> same_bias b2 b3 -> same_bias b1 b3.
Proof.
  destruct b1, b2, b3; cbn; try tauto.
  unfold same_value. intros (? & ? & ?) (? & ? & ?). repeat split; congruence.
Qed.

Lemma same_bias_moved (mv : Param -> Param) (bo : option Param) :
  (forall p, same_value (mv p) p) ->
  same_bias bo (option_map mv bo).
Proof. intros H. destruct bo; cbn; auto. Qed.

Lemma kept_refl (l : GraphConvolution) : kept l l.
Proof. unfold kept. repeat split. apply same_bias_refl. Qed.

Lemma kept_trans (l1 l2 l3 : GraphConvolution) :
  kept l1 l2 -> kept l2 l3 -> kept l1 l3.
Proof.
  unfold kept.
  intros (A1 & A2 & A3 & A4 & A5 & A6 & A7 & A8)
         (B1 & B2 & B3 & B4 & B5 & B6 & B7 & B8).
  repeat split; try congruence. eapply same_bias_trans; eassumption.
Qed.

Lemma to_gpu_value (d : nat) (p : Param) : same_value (Parameter_to_gpu d p) p.
Proof. unfold same_value. repeat split. Qed.

Lemma to_cpu_value (p : Param) : same_value (Parameter_to_cpu p) p.
Proof. unfold same_value. repeat split. Qed.

Lemma kept_set_W (p : Param) (l : GraphConvolution) : kept l (set_W p l).
Proof. unfold kept. cbn. repeat split. apply same_bias_refl. Qed.

Lemma kept_on_gpu (d : nat) (l : GraphConvolution) : kept l (on_gpu d l).
Proof.
  rewrite on_gpu_eq. unfold kept. cbn. repeat split.
  apply same_bias_moved, to_gpu_value.
Qed.

Lemma on_cpu_eq (l : GraphConvolution) :
  on_cpu l =
  mkGraphConvolution (_params l) true
    (if _cpu l then _device_id l else None)
    (K l) (out_channels l) (_W_initializer l) (has_uninitialized_params l)
    (if _cpu l then W l
     else if registered "W"%string l then Parameter_to_cpu (W l) else W l)
    (if _cpu l then b l
     else if registered "b"%string l then option_map Parameter_to_cpu (b l)
          else b l)
    (Function_to_cpu (func l)).
Proof.
  unfold on_cpu. rewrite move_registered_eq.
  destruct l as [ps cpu id k' out wi hu W0 b0 f0].
  cbn [_params _cpu _device_id K out_channels _W_initializer
       has_uninitialized_params W b func].
  destruct cpu; reflexivity.
Qed.

Lemma kept_on_cpu (l : GraphConvolution) : kept l (on_cpu l).
Proof.
  rewrite on_cpu_eq. unfold kept. cbn. repeat split.
  destruct (_cpu l); [apply same_bias_refl |].
  destruct (registered "b"%string l); [| apply same_bias_refl].
  apply same_bias_moved, to_cpu_value.
Qed.

Lemma kept_op (o : Op) (l : GraphConvolution) (w : World) :
  kept l (fst (run_op o (l, w))).
Proof.
  destruct o as [x | | device | c]; cbn [run_op].
  - rewrite call_spec.
    destruct (has_uninitialized_params l); [| apply kept_refl].
    destruct (channels x) as [e | c]; [apply kept_refl |].
    destruct (weight_of l c); [apply kept_refl |].
    destruct cuda_available; cbn [filtered fst].
    + eapply kept_trans; [apply kept_set_W | apply kept_on_gpu].
    + apply kept_set_W.
  - rewrite to_cpu_spec. apply kept_on_cpu.
  - rewrite to_gpu_spec. destruct cuda_available; cbn [fst];
      [apply kept_on_gpu | apply kept_refl].
  - rewrite initialize_params_spec.
    destruct (weight_of l c); [apply kept_refl | apply kept_set_W].
Qed.

Lemma run_ops_cons (o : Op) (ops : list Op) (s : GraphConvolution * World) :
  run_ops (o :: ops) s = run_ops ops (run_op o s).
Proof. reflexivity. Qed.

Lemma kept_ops (ops : list Op) (l : GraphConvolution) (w : World) :
  kept l (fst (run_ops ops (l, w))).
Proof.
  revert l w. induction ops as [| o ops IH]; intros l w; [apply kept_refl |].
  rewrite run_ops_cons.
  pose proof (kept_op o l w) as H1.
  destruct (run_op o (l, w)) as [l1 w1]. cbn [fst] in H1.
  eapply kept_trans; [exact H1 | apply IH].
Qed.

(** X1.  Whatever is done with a link (forward calls, transfers to and from
    the GPU, [_initialize_params]), in any order and whether or not a step
    raises, [has_uninitialized_params], [K], [out_channels], the weight
    initializer and the Laplacian and order held by the filter function stay
    what they were.  In particular nothing ever clears
    [has_uninitialized_params]. *)

Theorem configuration_never_changes
  (ops : list Op) (l : GraphConvolution) (w : World) :
  let l' := fst (run_ops ops (l, w)) in
  has_uninitialized_params l' = has_uninitialized_params l
  /\ K l' = K l
  /\ out_channels l' = out_channels l
  /\ _W_initializer l' = _W_initializer l
  /\ f_L (func l') = f_L (func l)
  /\ f_K (func l') = f_K (func l).
Proof.
  cbn zeta. destruct (kept_ops ops l w) as (H1 & H2 & H3 & H4 & _ & _ & H7 & H8).
  repeat split; assumption.
Qed.

(** X2.  The bias is never created, dropped or replaced after construction:
    whatever is done with the link, a link without bias stays without, and a
    link with a bias holds the same [Parameter] object, with the same
    initializer and shape (only its device may change). *)

Theorem bias_is_never_replaced
  (ops : list Op) (l : GraphConvolution) (w : World) :
  match b l, b (fst (run_ops ops (l, w))) with
  | None, None => True
  | Some p, Some q =>
      p_id q = p_id p /\ p_initializer q = p_initializer p
      /\ p_shape q = p_shape p
  | _, _ => False
  end.
Proof.
  destruct (kept_ops ops l w) as (_ & _ & _ & _ & _ & H & _).
  exact H.
Qed.

End GraphConvolutionFrame.

Section GraphConvolutionEdges.

Context {C : Carriers} {P : Platform}.

Lemma channels_short (x : Var) :
  (List.length (shape x) < 2)%nat -> channels x = inl IndexError.
Proof.
  intros H. unfold channels.
  destruct (nth_error (shape x) 1) as [c |] eqn:E; [| reflexivity].
  assert (nth_error (shape x) 1 <> None) as Hn by congruence.
  apply nth_error_Some in Hn. lia.
Qed.

(** X3.  A forward call on a link whose [has_uninitialized_params] is set,
    with an input of fewer than two dimensions, raises [IndexError] at
    [x.shape[1]] and changes nothing: no weight is created, nothing is moved
    and the filter is not applied. *)

Theorem lazy_call_needs_channel_axis
  (x : Var) (l : GraphConvolution) (w : World) :
  has_uninitialized_params l = true ->
  (List.length (shape x) < 2)%nat ->
  GraphConvolution_call x (l, w) = ((l, w), inl IndexError).
Proof.
  intros Hu Hx. rewrite call_spec, Hu, (channels_short x Hx). reflexivity.
Qed.

(** X4.  Both transfers are idempotent: a second [to_gpu] to the same device,
    or a second [to_cpu], leaves the link as the first one left it. *)

Theorem transfers_are_idempotent
  (device : option nat) (l : GraphConvolution) (w : World) :
  fst (GraphConvolution_to_gpu device (fst (GraphConvolution_to_gpu device (l, w))))
  = fst (GraphConvolution_to_gpu device (l, w))
  /\ fst (GraphConvolution_to_cpu (fst (GraphConvolution_to_cpu (l, w))))
     = fst (GraphConvolution_to_cpu (l, w)).
Proof.
  split.
  - rewrite (to_gpu_spec device l w).
    destruct cuda_available eqn:Hc; cbn [fst].
    + rewrite to_gpu_spec, Hc. cbn [fst]. f_equal.
      rewrite !on_gpu_eq.
      cbn [_params _cpu _device_id K out_channels _W_initializer
           has_uninitialized_params W b func].
      destruct (_cpu l), (b l); reflexivity.
    + rewrite to_gpu_spec, Hc. reflexivity.
  - rewrite !to_cpu_spec. cbn [fst]. f_equal.
    rewrite !on_cpu_eq.
    cbn [_params _cpu _device_id K out_channels _W_initializer
         has_uninitialized_params W b func].
    destruct (_cpu l); reflexivity.
Qed.

(** X5.  The constructor allocates the weight first and the bias, if any,
    next: they are two distinct new objects, and a new link is on the CPU as
    a whole (weight, bias, the buffers of the filter function, and the
    base-class flag). *)

Theorem constructor_allocates_on_cpu
  (in_channels : option Z) (out : Z) (A : Graph) (k : Z) (bias : Float)
  (nobias : bool) (initialW initial_bias : option InitValue) (w0 w1 : World)
  (l : GraphConvolution) :
  GraphConvolution_init in_channels out A k bias nobias initialW initial_bias w0
    = (w1, inr l) ->
  p_id (W l) = next_id w0
  /\ p_device (W l) = Cpu
  /\ f_device (func l) = Cpu
  /\ _cpu l = true
  /\ _params l = []
  /\ if nobias
     then b l = None /\ next_id w1 = S (next_id w0)
          /\ count is_new_parameter w1 = S (count is_new_parameter w0)
     else (exists p, b l = Some p /\ p_id p = S (next_id w0) /\ p_device p = Cpu)
          /\ next_id w1 = S (S (next_id w0))
          /\ count is_new_parameter w1 = S (S (count is_new_parameter w0)).
Proof.
  intros Hinit.
  destruct (init_built _ _ _ _ _ _ _ _ _ _ _ Hinit) as (L & _ & Hb).
  unfold built in Hb. injection Hb as <- <-.
  cbn [W b func _cpu _params].
  split; [destruct in_channels; reflexivity |].
  split; [destruct in_channels; reflexivity |].
  split; [reflexivity |]. split; [reflexivity |]. split; [reflexivity |].
  destruct nobias; cbn iota.
  - split; [reflexivity |]. split; [reflexivity |].
    rewrite !count_logged, !count_allocated, !count_logged.
    destruct in_channels; cbn; lia.
  - split; [eexists; repeat split |]. split; [reflexivity |].
    rewrite !count_logged, !count_allocated, !count_logged.
    destruct in_channels; cbn; lia.
Qed.

(** X6.  [to_cpu] on a link that has just been constructed changes
    nothing. *)

Theorem to_cpu_of_new_link
  (in_channels : option Z) (out : Z) (A : Graph) (k : Z) (bias : Float)
  (nobias : bool) (initialW initial_bias : option InitValue) (w0 w1 : World)
  (l : GraphConvolution) (w : World) :
  GraphConvolution_init in_channels out A k bias nobias initialW initial_bias w0
    = (w1, inr l) ->
  GraphConvolution_to_cpu (l, w) = ((l, w), inr tt).
Proof.
  intros Hinit.
  destruct (init_built _ _ _ _ _ _ _ _ _ _ _ Hinit) as (L & _ & Hb).
  unfold built in Hb. injection Hb as _ <-.
  rewrite to_cpu_spec. reflexivity.
Qed.

(** The inputs on which a deferred link gets as far as creating a weight:
    those with a channel axis for which a weight of shape
    [(out, x.shape[1], k)] can be built with the initializer [init]. *)

Definition buildable (init : Initializer) (out k : Z) (x : Var) : bool :=
  match channels x with
  | inl _ => false
  | inr c =>
      match generate init [out; c; k] with
      | inl _ => false
      | inr _ => true
      end
  end.

Definition creates (l : GraphConvolution) (x : Var) : bool :=
  buildable (_W_initializer l) (out_channels l) (K l) x.

Lemma call_effects (x : Var) (l : GraphConvolution) (w : World) :
  let s := fst (GraphConvolution_call x (l, w)) in
  let n := if has_uninitialized_params l
           then (if creates l x then 1 else 0)%nat
           else 0%nat in
  let m := if has_uninitialized_params l
           then (if creates l x then 1 else 0)%nat
           else 1%nat in
  next_id (snd s) = (next_id w + n)%nat
  /\ count is_new_parameter (snd s) = (count is_new_parameter w + n)%nat
  /\ count is_forward (snd s) = (count is_forward w + m)%nat
  /\ rng (snd s) = rng w.
Proof.
  cbn zeta. rewrite call_spec. unfold creates, buildable.
  fold (weight_of l).
  destruct (has_uninitialized_params l).
  - destruct (channels x) as [e | c]; cbn [fst snd].
    + repeat split; lia.
    + change (generate (_W_initializer l) [out_channels l; c; K l])
        with (weight_of l c).
      destruct (weight_of l c); cbn [fst snd]; [repeat split; lia |].
      destruct cuda_available; cbn [filtered fst snd];
        rewrite !count_logged, !count_allocated; cbn; repeat split; lia.
  - cbn [filtered fst snd]. rewrite !count_logged. cbn. repeat split; lia.
Qed.

(** X7.  On a link constructed with a concrete [in_channels], every forward
    call applies the filter function exactly once and allocates nothing,
    whatever the input and whether or not the filter raises: after [n] calls
    the trace has [n] more applications and no new parameter. *)

Theorem initialized_link_applies_filter_once_per_call
  (c out : Z) (A : Graph) (k : Z) (bias : Float) (nobias : bool)
  (initialW initial_bias : option InitValue) (w0 w1 : World)
  (l : GraphConvolution) :
  GraphConvolution_init (Some c) out A k bias nobias initialW initial_bias w0
    = (w1, inr l) ->
  forall (xs : list Var) (w : World),
    let s := forward_calls xs (l, w) in
    count is_forward (snd s) = (count is_forward w + List.length xs)%nat
    /\ count is_new_parameter (snd s) = count is_new_parameter w
    /\ next_id (snd s) = next_id w.
Proof.
  intros Hinit.
  assert (Hu : has_uninitialized_params l = false).
  { destruct (init_built _ _ _ _ _ _ _ _ _ _ _ Hinit) as (L & _ & Hb).
    unfold built in Hb. injection Hb as _ <-. reflexivity. }
  clear Hinit. intros xs. revert l Hu.
  induction xs as [| x xs IH]; intros l Hu w; cbn zeta.
  { cbn. repeat split; lia. }
  rewrite forward_calls_cons.
  pose proof (call_effects x l w) as H. cbn zeta in H. rewrite Hu in H.
  pose proof (call_flag x l w) as Hf. rewrite Hu in Hf.
  destruct (GraphConvolution_call x (l, w)) as [[l' w'] r].
  cbn [fst snd] in *.
  specialize (IH l' Hf w'). cbn zeta in IH.
  destruct H as (H1 & H2 & H3 & _). destruct IH as (I1 & I2 & I3).
  cbn [List.length]. repeat split; lia.
Qed.

(** X8.  On a link constructed with [in_channels = None], every forward call
    that gets as far as creating the weight (an input with a channel axis,
    a weight that can be built for its channel count) allocates a weight and
    applies the filter function once, and every other call raises and does
    neither: after the calls on [xs] there are as many new weights and as
    many applications as such inputs in [xs]. *)

Theorem lazy_link_allocates_at_every_call
  (out : Z) (A : Graph) (k : Z) (bias : Float) (nobias : bool)
  (initialW initial_bias : option InitValue) (w0 w1 : World)
  (l : GraphConvolution) :
  GraphConvolution_init None out A k bias nobias initialW initial_bias w0
    = (w1, inr l) ->
  forall (xs : list Var) (w : World),
    let s := forward_calls xs (l, w) in
    let n := List.length
               (filter (buildable (_get_initializer initialW) out k) xs) in
    count is_new_parameter (snd s) = (count is_new_parameter w + n)%nat
    /\ count is_forward (snd s) = (count is_forward w + n)%nat
    /\ next_id (snd s) = (next_id w + n)%nat.
Proof.
  intros Hinit.
  assert (H0 : has_uninitialized_params l = true
               /\ _W_initializer l = _get_initializer initialW
               /\ out_channels l = out /\ K l = k).
  { destruct (init_built _ _ _ _ _ _ _ _ _ _ _ Hinit) as (L & _ & Hb).
    unfold built in Hb. injection Hb as _ <-. repeat split. }
  clear Hinit. intros xs. revert l H0.
  induction xs as [| x xs IH]; intros l (Hu & Hi & Ho & Hk) w; cbn zeta.
  { cbn. repeat split; lia. }
  rewrite forward_calls_cons.
  pose proof (call_effects x l w) as H. cbn zeta in H. rewrite Hu in H.
  unfold creates in H. rewrite Hi, Ho, Hk in H.
  pose proof (kept_op (DoCall x) l w) as (K1 & K2 & K3 & K4 & _).
  cbn [run_op] in K1, K2, K3, K4. cbn [fst] in K1, K2, K3, K4.
  destruct (GraphConvolution_call x (l, w)) as [[l' w'] r].
  cbn [fst snd] in *.
  assert (H' : has_uninitialized_params l' = true
               /\ _W_initializer l' = _get_initializer initialW
               /\ out_channels l' = out /\ K l' = k)
    by (repeat split; congruence).
  specialize (IH l' H' w'). cbn zeta in IH.
  destruct H as (H1 & H2 & H3 & _). destruct IH as (I1 & I2 & I3).
  cbn [filter].
  destruct (buildable (_get_initializer initialW) out k x); cbn [List.length];
    repeat split; lia.
Qed.

End GraphConvolutionEdges.

(** * Further properties of the model *)

Section GraphCNNFrame.

Context {C : Carriers} {P : Platform}.

(** ** The constructor *)

Lemma build_graph_layers_spec (triples : list (Graph * PoolingInds * Z)) :
  forall (i : nat) (w w' : World)
         (r : list (GraphConvolution * GraphMaxPoolingFunction)
              * list (string * LayerRef)),
    build_graph_layers i triples w = (w', inr r) ->
    map snd (fst r) = map (fun t => mkPooling (snd (fst t))) triples
    /\ map (fun fp => out_channels (fst fp)) (fst r) = map snd triples
    /\ Forall (fun fp => has_uninitialized_params (fst fp) = true
                         /\ K (fst fp) = 25
                         /\ p_shape (W (fst fp)) = None
                         /\ b (fst fp) <> None) (fst r)
    /\ count is_laplacian w' = (count is_laplacian w + List.length triples)%nat
    /\ count is_new_function w'
       = (count is_new_function w + List.length triples)%nat
    /\ next_id w' = (next_id w + 2 * List.length triples)%nat.
Proof.
  induction triples as [| [[g inds] s0] rest IH]; intros i w w' r H.
  - cbn in H. injection H as <- <-. cbn. repeat split; try lia. constructor.
  - cbn [build_graph_layers] in H. unfold bind at 1 in H.
    destruct (GraphConvolution_init None s0 g 25 0%Q false None None w)
      as [wa [e | f]] eqn:Ei; [discriminate |].
    destruct (init_built _ _ _ _ _ _ _ _ _ _ _ Ei) as (L & _ & Hb).
    unfold built in Hb. cbn iota zeta in Hb. injection Hb as Hwa Hf.
    unfold bind at 1 in H.
    destruct (build_graph_layers (S i) rest wa) as [wb [e | r']] eqn:E;
      [discriminate |].
    destruct (IH (S i) wa wb r' E) as (I1 & I2 & I3 & I4 & I5 & I6).
    cbn in H. injection H as <- <-.
    subst wa f.
    cbn [fst snd map List.length].
    split; [f_equal; exact I1 |].
    split; [f_equal; exact I2 |].
    split; [constructor; [cbn; repeat split; discriminate | exact I3] |].
    rewrite !count_logged, !count_allocated, !count_logged in I4.
    rewrite !count_logged, !count_allocated, !count_logged in I5.
    cbn in I4, I5, I6. repeat split; lia.
Qed.

Lemma zip3_length {X Y Z' : Type} (xs : list X) (ys : list Y) (zs : list Z') :
  List.length (zip3 xs ys zs)
  = Nat.min (Nat.min (List.length xs) (List.length ys)) (List.length zs).
Proof. unfold zip3. rewrite !length_combine. reflexivity. Qed.

(** X9.  What [coarsen] or [combine] raises, the constructor of the model
    raises, with nothing done yet: the world is as before, no Laplacian
    computed and no link built. *)

Theorem coarsening_errors_propagate (A : Graph) (n_out : Z) (w : World) :
  (forall e, coarsen A 4 = inl e -> GraphCNN_init A n_out w = (w, inl e))
  /\ (forall graphs pooling_inds e,
        coarsen A 4 = inr (graphs, pooling_inds) ->
        combine graphs pooling_inds 2 = inl e ->
        GraphCNN_init A n_out w = (w, inl e)).
Proof.
  split.
  - intros e He. unfold GraphCNN_init. unfold bind at 1. unfold lift at 1.
    rewrite He. reflexivity.
  - intros graphs pooling_inds e Hc He.
    unfold GraphCNN_init. unfold bind at 1. unfold lift at 1. rewrite Hc.
    unfold bind at 1. unfold lift at 1. rewrite He. reflexivity.
Qed.

(** X10.  The model has as many graph layers as the shortest of the combined
    graphs, the combined maps and the two sizes: never more than two, and
    fewer, without any error, when [combine] returns fewer than two graphs or
    maps.  Layer [i] pools with the [i]-th combined map and has the [i]-th
    size of 32, 64; each link is deferred, with [K = 25] and a bias.  The
    constructor computes one Laplacian and builds one filter function per
    layer, and allocates two parameters per layer. *)

Theorem model_layers_follow_shortest_list
  (A : Graph) (n_out : Z) (w w' : World) (m : GraphCNN)
  (graphs graphs' : list Graph) (pooling_inds pooling_inds' : list PoolingInds) :
  coarsen A 4 = inr (graphs, pooling_inds) ->
  combine graphs pooling_inds 2 = inr (graphs', pooling_inds') ->
  GraphCNN_init A n_out w = (w', inr m) ->
  let n := Nat.min (Nat.min (List.length graphs') (List.length pooling_inds')) 2 in
  List.length (graph_layers m) = n
  /\ map snd (graph_layers m) = map mkPooling (firstn n pooling_inds')
  /\ map (fun fp => out_channels (fst fp)) (graph_layers m) = firstn n [32; 64]
  /\ Forall (fun fp => has_uninitialized_params (fst fp) = true
                       /\ K (fst fp) = 25
                       /\ p_shape (W (fst fp)) = None
                       /\ b (fst fp) <> None) (graph_layers m)
  /\ count is_laplacian w' = (count is_laplacian w + n)%nat
  /\ count is_new_function w' = (count is_new_function w + n)%nat
  /\ next_id w' = (next_id w + 2 * n)%nat.
Proof.
  intros Hc Hk Hinit. unfold GraphCNN_init in Hinit.
  unfold bind at 1 in Hinit. unfold lift at 1 in Hinit. rewrite Hc in Hinit.
  unfold bind at 1 in Hinit. unfold lift at 1 in Hinit. rewrite Hk in Hinit.
  unfold bind at 1 in Hinit.
  destruct (build_graph_layers 0 (zip3 graphs' pooling_inds' [32; 64]) w)
    as [wa [e | r]] eqn:E; [discriminate |].
  cbn in Hinit. injection Hinit as <- <-. cbn [graph_layers].
  destruct (build_graph_layers_spec _ _ _ _ _ E) as (I1 & I2 & I3 & I4 & I5 & I6).
  rewrite zip3_length in I4, I5, I6. cbn [List.length] in I4, I5, I6.
  assert (Hlen : List.length (fst r)
                 = Nat.min (Nat.min (List.length graphs')
                                    (List.length pooling_inds')) 2).
  { rewrite <- (length_map snd), I1, length_map, zip3_length. reflexivity. }
  cbn zeta.
  split; [exact Hlen |].
  split.
  { rewrite I1. clear.
    destruct graphs' as [| g0 [| g1 gs]], pooling_inds' as [| i0 [| i1 ps]];
      cbn; rewrite ?Nat.min_0_r, ?combine_nil; reflexivity. }
  split.
  { rewrite I2. clear.
    destruct graphs' as [| g0 [| g1 gs]], pooling_inds' as [| i0 [| i1 ps]];
      cbn; rewrite ?Nat.min_0_r, ?combine_nil; reflexivity. }
  split; [exact I3 |].
  repeat split; assumption.
Qed.

(** ** The forward pass, stage by stage *)

Lemma network_spec (x : Var) (m : GraphCNN) (w : World) :
  network x (m, w) =
  match apply_graph_layers (graph_layers m) x w with
  | ((gl, w1), inl e) => ((set_graph_layers gl m, w1), inl e)
  | ((gl, w1), inr h) =>
      match apply_linear_layers (linear_layers m) h w1 with
      | ((ll, w2), inl e) =>
          ((set_linear_layers ll (set_graph_layers gl m), w2), inl e)
      | ((ll, w2), inr h') =>
          let (cl, r) := linear (cls_layer m) h' in
          ((set_cls_layer cl (set_linear_layers ll (set_graph_layers gl m)), w2), r)
      end
  end.
Proof.
  destruct m as [gl0 ll0 cl0 t0 d0].
  unfold network, bind, zoom, call_linear.
  cbn [fst snd graph_layers linear_layers cls_layer].
  destruct (apply_graph_layers gl0 x w) as [[gl w1] [e | h]]; [reflexivity |].
  cbn [fst snd set_graph_layers graph_layers linear_layers cls_layer].
  destruct (apply_linear_layers ll0 h w1) as [[ll w2] [e | h']]; [reflexivity |].
  cbn [fst snd set_graph_layers set_linear_layers graph_layers linear_layers
       cls_layer].
  destruct (linear cl0 h') as [cl r]. reflexivity.
Qed.

(** The links of two layer lists agree, one by one, on what no method
    touches, and the pooling functions are the same. *)

Definition layers_kept
  (ls ls' : list (GraphConvolution * GraphMaxPoolingFunction)) : Prop :=
  Forall2 (fun fp fp' => kept (fst fp) (fst fp') /\ snd fp' = snd fp) ls ls'.

Lemma layers_kept_refl (ls : list (GraphConvolution * GraphMaxPoolingFunction)) :
  layers_kept ls ls.
Proof.
  induction ls as [| fp ls IH]; constructor; [| exact IH].
  split; [apply kept_refl | reflexivity].
Qed.

Lemma call_kept (x : Var) (l : GraphConvolution) (w : World) :
  kept l (fst (fst (GraphConvolution_call x (l, w)))).
Proof. exact (kept_op (DoCall x) l w). Qed.

Lemma graph_stage_frame
  (layers : list (GraphConvolution * GraphMaxPoolingFunction)) :
  forall (h : Var) (w : World),
    let r := apply_graph_layers layers h w in
    layers_kept layers (fst (fst r))
    /\ rng (snd (fst r)) = rng w
    /\ forall f : Event -> bool,
         (forall p, f (EvNewParameter p) = false) ->
         (forall g y p q, f (EvForward g y p q) = false) ->
         count f (snd (fst r)) = count f w.
Proof.
  induction layers as [| [f p] rest IH]; intros h w; cbn zeta.
  { cbn. repeat split. constructor. }
  cbn [apply_graph_layers].
  pose proof (call_kept h f w) as Hk.
  pose proof (call_effects h f w) as (_ & _ & _ & Hr).
  pose proof (fun g Hp Hf => call_count g h f w Hp Hf) as Hc.
  destruct (GraphConvolution_call h (f, w)) as [[f' w'] [e | y]];
    cbn [fst snd] in *.
  { repeat split; try assumption.
    constructor; [split; [exact Hk | reflexivity] | apply layers_kept_refl]. }
  destruct (graph_max_pooling p (relu y)) as [e | h'].
  { cbn [fst snd]. repeat split; try assumption.
    constructor; [split; [exact Hk | reflexivity] | apply layers_kept_refl]. }
  specialize (IH h' w'). cbn zeta in IH.
  destruct (apply_graph_layers rest h' w') as [[rest' w''] r].
  cbn [fst snd] in *. destruct IH as (I1 & I2 & I3).
  split; [constructor; [split; [exact Hk | reflexivity] | exact I1] |].
  split; [congruence |].
  intros g Hp Hf. rewrite (I3 g Hp Hf). apply Hc; assumption.
Qed.

Lemma linear_stage_frame (layers : list Linear) :
  forall (h : Var) (w : World),
    let r := apply_linear_layers layers h w in
    List.length (fst (fst r)) = List.length layers
    /\ next_id (snd (fst r)) = next_id w
    /\ trace (snd (fst r)) = trace w.
Proof.
  induction layers as [| f rest IH]; intros h w; cbn zeta.
  { cbn. repeat split. }
  cbn [apply_linear_layers]. unfold draw_dropout.
  destruct (linear f h) as [f' [e | y]]; [cbn; repeat split |].
  destruct (dropout (rng w) y dropout_ratio) as [g d].
  specialize (IH (relu d) (mkWorld (next_id w) g (trace w))). cbn zeta in IH.
  destruct (apply_linear_layers rest (relu d) _) as [[rest' w''] r].
  cbn [fst snd next_id trace List.length] in *.
  destruct IH as (I1 & I2 & I3). repeat split; congruence.
Qed.

Lemma count_same_trace (f : Event -> bool) (w w' : World) :
  trace w' = trace w -> count f w' = count f w.
Proof. unfold count. intros ->. reflexivity. Qed.

(** What a forward pass of the network leaves as it was. *)

Lemma network_frame (x : Var) (m : GraphCNN) (w : World) :
  let r := network x (m, w) in
  let m' := fst (fst r) in
  layers_kept (graph_layers m) (graph_layers m')
  /\ List.length (linear_layers m') = List.length (linear_layers m)
  /\ train m' = train m
  /\ __dict__ m' = __dict__ m
  /\ forall f : Event -> bool,
       (forall p, f (EvNewParameter p) = false) ->
       (forall g y p q, f (EvForward g y p q) = false) ->
       count f (snd (fst r)) = count f w.
Proof.
  cbn zeta. rewrite network_spec.
  pose proof (graph_stage_frame (graph_layers m) x w) as G. cbn zeta in G.
  destruct (apply_graph_layers (graph_layers m) x w) as [[gl w1] [e | h]];
    cbn [fst snd] in G; destruct G as (G1 & G2 & G3).
  { cbn. repeat split; assumption. }
  pose proof (linear_stage_frame (linear_layers m) h w1) as L. cbn zeta in L.
  destruct (apply_linear_layers (linear_layers m) h w1) as [[ll w2] [e | h']];
    cbn [fst snd] in L; destruct L as (L1 & L2 & L3).
  { cbn. repeat split; try assumption.
    intros f Hp Hf. rewrite (count_same_trace f w1 w2 L3). apply G3; assumption. }
  destruct (linear (cls_layer m) h') as [cl r].
  cbn. repeat split; try assumption.
  intros f Hp Hf. rewrite (count_same_trace f w1 w2 L3). apply G3; assumption.
Qed.

(** X11.  A call of the model, with or without labels and whether or not it
    raises, keeps the shape of the model: the same number of graph layers
    with the same pooling functions, each link with its
    [has_uninitialized_params], [K], [out_channels] and Laplacian as before,
    the same number of linear layers, and [train] and the named entries of
    [__dict__] untouched. *)

Theorem call_keeps_model_structure
  (x : Var) (args : list Labels) (m : GraphCNN) (w : World) :
  let m' := fst (fst (GraphCNN_call x args (m, w))) in
  map snd (graph_layers m') = map snd (graph_layers m)
  /\ Forall2 (fun fp fp' =>
                has_uninitialized_params (fst fp')
                = has_uninitialized_params (fst fp)
                /\ K (fst fp') = K (fst fp)
                /\ out_channels (fst fp') = out_channels (fst fp)
                /\ f_L (func (fst fp')) = f_L (func (fst fp)))
       (graph_layers m) (graph_layers m')
  /\ List.length (linear_layers m') = List.length (linear_layers m)
  /\ train m' = train m
  /\ __dict__ m' = __dict__ m.
Proof.
  cbn zeta.
  assert (E : fst (fst (GraphCNN_call x args (m, w))) = fst (fst (network x (m, w)))).
  { destruct args as [| labels rest].
    - rewrite call_without_labels. reflexivity.
    - rewrite call_with_labels.
      destruct (network x (m, w)) as [[m' w'] [e | h]]; [reflexivity |].
      destruct (softmax_cross_entropy h labels); [reflexivity |].
      destruct (accuracy h labels); reflexivity. }
  rewrite E. pose proof (network_frame x m w) as (F1 & F2 & F3 & F4 & _).
  cbn zeta in *.
  split.
  { induction F1 as [| fp fp' ls ls' [_ Hs] _ IH]; [reflexivity |].
    cbn [map]. f_equal; [symmetry in Hs; symmetry; exact Hs | exact IH]. }
  split.
  { induction F1 as [| fp fp' ls ls' [Hk _] _ IH]; constructor; [| exact IH].
    destruct Hk as (H1 & H2 & H3 & _ & _ & _ & H7 & _).
    repeat split; assumption. }
  repeat split; assumption.
Qed.

(** X12.  A call of the model computes no Laplacian and builds no filter
    function, and it reports exactly once when it is given labels and returns
    a loss, and not at all otherwise (no labels, or an exception anywhere in
    the pass). *)

Theorem call_reports_only_with_a_loss
  (x : Var) (args : list Labels) (m : GraphCNN) (w : World) :
  let r := GraphCNN_call x args (m, w) in
  count is_laplacian (snd (fst r)) = count is_laplacian w
  /\ count is_new_function (snd (fst r)) = count is_new_function w
  /\ count is_report (snd (fst r))
     = (count is_report w
        + match args, snd r with
          | _ :: _, inr _ => 1
          | _, _ => 0
          end)%nat.
Proof.
  cbn zeta.
  pose proof (network_frame x m w) as (_ & _ & _ & _ & F). cbn zeta in F.
  pose proof (F is_laplacian (fun _ => eq_refl) (fun _ _ _ _ => eq_refl)) as F1.
  pose proof (F is_new_function (fun _ => eq_refl) (fun _ _ _ _ => eq_refl)) as F2.
  pose proof (F is_report (fun _ => eq_refl) (fun _ _ _ _ => eq_refl)) as F3.
  clear F.
  destruct args as [| labels rest].
  - rewrite call_without_labels.
    destruct (network x (m, w)) as [[m' w'] [e | h]]; cbn [fst snd] in *;
      repeat split; lia.
  - rewrite call_with_labels.
    destruct (network x (m, w)) as [[m' w'] [e | h]]; cbn [fst snd] in *;
      [repeat split; lia |].
    destruct (softmax_cross_entropy h labels) as [e | loss];
      [cbn [fst snd]; repeat split; lia |].
    destruct (accuracy h labels) as [e | acc]; cbn [fst snd];
      [repeat split; lia |].
    rewrite !count_logged. cbn. repeat split; lia.
Qed.

Lemma call_success_creates (x : Var) (l : GraphConvolution) (w : World)
  (y : Var) :
  has_uninitialized_params l = true ->
  snd (GraphConvolution_call x (l, w)) = inr y ->
  creates l x = true.
Proof.
  intros Hu. rewrite call_spec, Hu. unfold creates, buildable.
  destruct (channels x) as [e | c]; [discriminate |].
  change (generate (_W_initializer l) [out_channels l; c; K l])
    with (weight_of l c).
  destruct (weight_of l c); [discriminate | reflexivity].
Qed.

Lemma graph_stage_allocates
  (layers : list (GraphConvolution * GraphMaxPoolingFunction)) :
  forall (h : Var) (w : World) (h' : Var),
    Forall (fun fp => has_uninitialized_params (fst fp) = true) layers ->
    snd (apply_graph_layers layers h w) = inr h' ->
    let w' := snd (fst (apply_graph_layers layers h w)) in
    next_id w' = (next_id w + List.length layers)%nat
    /\ count is_new_parameter w'
       = (count is_new_parameter w + List.length layers)%nat
    /\ count is_forward w' = (count is_forward w + List.length layers)%nat.
Proof.
  induction layers as [| [f p] rest IH]; intros h w h' Hl Hr; cbn zeta.
  { cbn. repeat split; lia. }
  inversion Hl as [| ? ? Hu Hrest]; subst. cbn [fst] in Hu.
  cbn [apply_graph_layers] in *.
  pose proof (call_effects h f w) as E. cbn zeta in E. rewrite Hu in E.
  pose proof (call_success_creates h f w) as S.
  destruct (GraphConvolution_call h (f, w)) as [[f' w1] [e | y]];
    cbn [fst snd] in *; [discriminate |].
  rewrite (S y Hu eq_refl) in E.
  destruct (graph_max_pooling p (relu y)) as [e | h1]; [discriminate |].
  specialize (IH h1 w1 h' Hrest). cbn zeta in IH.
  destruct (apply_graph_layers rest h1 w1) as [[rest' w2] r].
  cbn [fst snd List.length] in *. specialize (IH Hr).
  destruct E as (E1 & E2 & E3 & _). destruct IH as (I1 & I2 & I3).
  repeat split; lia.
Qed.

(** X13.  Every call of the model that returns, on a model whose links all
    have [has_uninitialized_params] set (as every constructed model has, for
    good), allocates a new weight for each graph layer and applies each
    filter function once: the weights of one pass are not those of the
    pass before. *)

Theorem model_pass_allocates_every_weight
  (x : Var) (args : list Labels) (m : GraphCNN) (w : World)
  (s' : GraphCNN * World) (v : Var) :
  Forall (fun fp => has_uninitialized_params (fst fp) = true) (graph_layers m) ->
  GraphCNN_call x args (m, w) = (s', inr v) ->
  let n := List.length (graph_layers m) in
  next_id (snd s') = (next_id w + n)%nat
  /\ count is_new_parameter (snd s') = (count is_new_parameter w + n)%nat
  /\ count is_forward (snd s') = (count is_forward w + n)%nat.
Proof.
  intros Hl Hcall. cbn zeta.
  assert (N : exists m1 w1 h,
             network x (m, w) = ((m1, w1), inr h)
             /\ next_id (snd s') = next_id w1
             /\ count is_new_parameter (snd s') = count is_new_parameter w1
             /\ count is_forward (snd s') = count is_forward w1).
  { destruct args as [| labels rest].
    - rewrite call_without_labels in Hcall.
      destruct s' as [m1 w1]. exists m1, w1, v. repeat split. exact Hcall.
    - rewrite call_with_labels in Hcall.
      destruct (network x (m, w)) as [[m1 w1] [e | h]]; [discriminate |].
      destruct (softmax_cross_entropy h labels) as [e | loss]; [discriminate |].
      destruct (accuracy h labels) as [e | acc]; [discriminate |].
      injection Hcall as <- _. exists m1, w1, h. cbn [fst snd].
      rewrite !count_logged. cbn. repeat split; lia. }
  destruct N as (m1 & w1 & h & Hn & N1 & N2 & N3).
  rewrite N1, N2, N3. clear N1 N2 N3 Hcall.
  rewrite network_spec in Hn.
  pose proof (graph_stage_allocates (graph_layers m) x w) as G.
  destruct (apply_graph_layers (graph_layers m) x w) as [[gl wa] [e | h0]];
    [discriminate |].
  specialize (G h0 Hl eq_refl). cbn [fst snd] in G.
  pose proof (linear_stage_frame (linear_layers m) h0 wa) as L. cbn zeta in L.
  destruct (apply_linear_layers (linear_layers m) h0 wa) as [[ll wb] [e | h1]];
    [discriminate |].
  cbn [fst snd] in L. destruct L as (_ & L2 & L3).
  destruct (linear (cls_layer m) h1) as [cl r].
  injection Hn as _ <- _.
  rewrite L2, !(count_same_trace _ wa wb L3). exact G.
Qed.

(** X14.  When a graph layer (a link or a pooling function) raises, the call
    of the model raises the same exception at once: no linear layer is
    called, the classifier and the linear layers are as before, no dropout
    is drawn and nothing is reported. *)

Theorem graph_layer_error_stops_the_pass
  (x : Var) (args : list Labels) (m : GraphCNN) (w : World) (e : Exn) :
  snd (apply_graph_layers (graph_layers m) x w) = inl e ->
  let r := GraphCNN_call x args (m, w) in
  snd r = inl e
  /\ linear_layers (fst (fst r)) = linear_layers m
  /\ cls_layer (fst (fst r)) = cls_layer m
  /\ rng (snd (fst r)) = rng w
  /\ count is_report (snd (fst r)) = count is_report w.
Proof.
  intros He. cbn zeta.
  pose proof (graph_stage_frame (graph_layers m) x w) as G. cbn zeta in G.
  assert (N : network x (m, w)
              = ((set_graph_layers
                    (fst (fst (apply_graph_layers (graph_layers m) x w))) m,
                  snd (fst (apply_graph_layers (graph_layers m) x w))), inl e)).
  { rewrite network_spec.
    destruct (apply_graph_layers (graph_layers m) x w) as [[gl w1] r].
    cbn [snd] in He. subst r. reflexivity. }
  assert (E : GraphCNN_call x args (m, w) = network x (m, w)).
  { destruct args as [| labels rest].
    - apply call_without_labels.
    - rewrite call_with_labels, N. reflexivity. }
  rewrite E, N. cbn [fst snd set_graph_layers linear_layers cls_layer].
  destruct G as (_ & G2 & G3).
  repeat split; try assumption.
  apply G3; intros; reflexivity.
Qed.

End GraphCNNFrame.

(** * Where a link lives *)

Section GraphConvolutionDevices.

Context {C : Carriers} {P : Platform}.

(** The link is, as a whole, on the device [dev]. *)

Definition lives_on (dev : Device) (l : GraphConvolution) : Prop :=
  p_device (W l) = dev
  /\ (forall p, b l = Some p -> p_device p = dev)
  /\ f_device (func l) = dev.

(** On the GPU [d], and known to the base class as being there. *)

Definition settled_on_gpu (d : nat) (l : GraphConvolution) : Prop :=
  _cpu l = false /\ _device_id l = Some d /\ lives_on (Gpu d) l.

Lemma on_gpu_lives (d : nat) (l : GraphConvolution) :
  lives_on (Gpu d) (on_gpu d l).
Proof.
  rewrite on_gpu_eq. unfold lives_on. cbn [W b func].
  split; [reflexivity |]. split; [| reflexivity].
  intros p. destruct (b l) as [q |]; cbn; [| discriminate].
  intros [= <-]. reflexivity.
Qed.

Lemma settled_call (d : nat) (x : Var) (l : GraphConvolution) (w : World) :
  cuda_available = true ->
  settled_on_gpu d l ->
  settled_on_gpu d (fst (fst (GraphConvolution_call x (l, w)))).
Proof.
  intros Hcuda Hs. pose proof Hs as (Hcpu & Hid & _).
  rewrite call_spec.
  destruct (has_uninitialized_params l); [| exact Hs].
  destruct (channels x) as [e | c]; [exact Hs |].
  destruct (weight_of l c); [exact Hs |].
  rewrite Hcuda, Hid. cbn [resolve filtered fst].
  split; [rewrite on_gpu_eq; reflexivity |].
  split; [rewrite on_gpu_eq; cbn [_device_id _cpu set_W]; rewrite Hcpu; exact Hid |].
  apply on_gpu_lives.
Qed.

(** X15.  With CUDA, a link that has been constructed and moved by
    [to_gpu(device)] stays on that GPU as a whole through any run of forward
    calls: the weight (also one re-created by a deferred link), the bias and
    the buffers of the filter function are on the one device at every
    call. *)

Theorem gpu_link_stays_on_its_gpu
  (in_channels : option Z) (out : Z) (A : Graph) (k : Z) (bias : Float)
  (nobias : bool) (initialW initial_bias : option InitValue) (w0 w1 : World)
  (l : GraphConvolution) (device : option nat) :
  cuda_available = true ->
  GraphConvolution_init in_channels out A k bias nobias initialW initial_bias w0
    = (w1, inr l) ->
  forall (xs : list Var) (w : World),
    let s := forward_calls xs (fst (GraphConvolution_to_gpu device (l, w))) in
    p_device (W (fst s)) = Gpu (resolve device)
    /\ (forall p, b (fst s) = Some p -> p_device p = Gpu (resolve device))
    /\ f_device (func (fst s)) = Gpu (resolve device)
    /\ _device_id (fst s) = Some (resolve device).
Proof.
  intros Hcuda Hinit xs w. cbn zeta.
  rewrite to_gpu_spec, Hcuda. cbn [fst].
  assert (Hs : settled_on_gpu (resolve device) (on_gpu (resolve device) l)).
  { destruct (init_built _ _ _ _ _ _ _ _ _ _ _ Hinit) as (L & _ & Hb).
    unfold built in Hb. injection Hb as _ Hl.
    assert (Hcpu : _cpu l = true) by (rewrite <- Hl; reflexivity).
    split; [rewrite on_gpu_eq; reflexivity |].
    split; [rewrite on_gpu_eq; cbn [_device_id]; rewrite Hcpu; reflexivity |].
    apply on_gpu_lives. }
  clear Hinit. revert Hs. generalize (on_gpu (resolve device) l) as l0.
  revert w. induction xs as [| x xs IH]; intros w l0 Hs.
  - destruct Hs as (_ & Hid & H1 & H2 & H3). cbn [forward_calls fold_left fst].
    repeat split; assumption.
  - rewrite forward_calls_cons.
    pose proof (settled_call (resolve device) x l0 w Hcuda Hs) as Hs'.
    destruct (GraphConvolution_call x (l0, w)) as [[l' w'] r].
    cbn [fst] in *. apply IH. exact Hs'.
Qed.

(** On the CPU, and known to the base class as being there. *)

Definition settled_on_cpu (l : GraphConvolution) : Prop :=
  _cpu l = true /\ lives_on Cpu l.

Lemma settled_cpu_op (o : Op) (l : GraphConvolution) (w : World) :
  cuda_available = false ->
  settled_on_cpu l ->
  settled_on_cpu (fst (run_op o (l, w))).
Proof.
  intros Hcuda Hs. pose proof Hs as (Hcpu & HW & Hb & Hf).
  destruct o as [x | | device | c]; cbn [run_op].
  - rewrite call_spec, Hcuda.
    destruct (has_uninitialized_params l); [| exact Hs].
    destruct (channels x) as [e | c]; [exact Hs |].
    destruct (weight_of l c); [exact Hs |].
    cbn [filtered fst]. repeat split; assumption.
  - rewrite to_cpu_spec, on_cpu_eq. cbn [fst]. rewrite Hcpu.
    unfold settled_on_cpu, lives_on. cbn [_cpu W b func Function_to_cpu f_device].
    repeat split; assumption.
  - rewrite to_gpu_spec, Hcuda. exact Hs.
  - rewrite initialize_params_spec.
    destruct (weight_of l c); [exact Hs |].
    cbn [fst]. repeat split; assumption.
Qed.

(** X16.  Without CUDA nothing ever leaves the CPU: whatever is done with a
    constructed link (forward calls, [to_cpu], [to_gpu], which raises,
    [_initialize_params]), its weight, its bias and the buffers of its
    filter function are on the CPU. *)

Theorem without_cuda_all_stays_on_cpu
  (in_channels : option Z) (out : Z) (A : Graph) (k : Z) (bias : Float)
  (nobias : bool) (initialW initial_bias : option InitValue) (w0 w1 : World)
  (l : GraphConvolution) :
  cuda_available = false ->
  GraphConvolution_init in_channels out A k bias nobias initialW initial_bias w0
    = (w1, inr l) ->
  forall (ops : list Op) (w : World),
    let l' := fst (run_ops ops (l, w)) in
    p_device (W l') = Cpu
    /\ (forall p, b l' = Some p -> p_device p = Cpu)
    /\ f_device (func l') = Cpu.
Proof.
  intros Hcuda Hinit ops w. cbn zeta.
  assert (Hs : settled_on_cpu l).
  { destruct (init_built _ _ _ _ _ _ _ _ _ _ _ Hinit) as (L & _ & Hb).
    unfold built in Hb. injection Hb as _ <-.
    unfold settled_on_cpu, lives_on. cbn [_cpu W b func f_device].
    split; [reflexivity |].
    split; [destruct in_channels; reflexivity |].
    split; [| reflexivity].
    intros p. destruct nobias; [discriminate |]. intros [= <-]. reflexivity. }
  clear Hinit. revert l w Hs.
  induction ops as [| o ops IH]; intros l w Hs.
  - exact (proj2 Hs).
  - rewrite run_ops_cons.
    pose proof (settled_cpu_op o l w Hcuda Hs) as Hs'.
    destruct (run_op o (l, w)) as [l' w']. cbn [fst] in Hs'.
    apply IH. exact Hs'.
Qed.

End GraphConvolutionDevices.

(** * The further properties at work *)

Module Runs.

Import Sample.

#[local] Existing Instance Sample.carriers.

(** The sample platform with a [coarsen] that rejects a malformed adjacency
    as [create_laplacian] does. *)

Definition strict_platform : Platform := {|
  scalar := fun c => c;
  _get_initializer := fun v => v;
  generate_array := sample_generate;
  constant_vector := sample_constant_vector;
  cuda_available := false;
  current_device := 0%nat;
  create_laplacian := sample_laplacian;
  coarsen := fun A levels =>
    match sample_laplacian A with
    | inl e => inl e
    | inr _ => sample_coarsen A levels
    end;
  combine := sample_combine;
  graph_convolution := sample_convolution;
  graph_max_pooling := sample_pooling;
  linear := sample_linear;
  relu := fun x => x;
  dropout := fun g y _ => (S g, y);
  softmax_cross_entropy := fun _ _ => inr [];
  accuracy := fun _ _ => inr []
|}.

(** A deferred link and an initialized one on the graph of the test, the
    model of the test, a vector without channel axis and a matrix, which has
    one but is no graph signal. *)

Definition lazy_link : World * GraphConvolution :=
  built (P := platform false) None 32 test_graph 25 0%Q false None None
    [[2; -1; -1; 0]; [-1; 2; 0; -1]; [-1; 0; 1; 0]; [0; -1; 0; 1]] empty_world.

Definition vector : Var := [4].

Definition matrix : Var := [32; 4].

Lemma lazy_call_needs_channel_axis_witness :
  has_uninitialized_params (snd lazy_link) = true
  /\ (List.length (shape vector) < 2)%nat
  /\ GraphConvolution_call (P := platform false) vector
       (snd lazy_link, fst lazy_link)
     = ((snd lazy_link, fst lazy_link), inl IndexError).
Proof.
  split; [reflexivity |].
  assert (H : (List.length (shape vector) < 2)%nat) by (cbn; lia).
  split; [exact H |].
  exact (lazy_call_needs_channel_axis (P := platform false) vector
           (snd lazy_link) (fst lazy_link) eq_refl H).
Defined.

Lemma constructor_allocates_on_cpu_witness :
  GraphConvolution_init (P := platform false)
    None 32 test_graph 25 0%Q false None None empty_world
  = (fst lazy_link, inr (snd lazy_link))
  /\ p_id (W (snd lazy_link)) = 0%nat
  /\ option_map p_id (b (snd lazy_link)) = Some 1%nat
  /\ next_id (fst lazy_link) = 2%nat.
Proof.
  split; [reflexivity |].
  destruct (constructor_allocates_on_cpu (P := platform false)
              None 32 test_graph 25 0%Q false None None empty_world
              (fst lazy_link) (snd lazy_link) eq_refl)
    as (HW & _ & _ & _ & _ & (p & Hb & Hp & _) & Hn & _).
  split; [exact HW |]. split; [rewrite Hb; cbn; f_equal; exact Hp | exact Hn].
Defined.

Lemma to_cpu_of_new_link_witness :
  GraphConvolution_init (P := platform false)
    None 32 test_graph 25 0%Q false None None empty_world
  = (fst lazy_link, inr (snd lazy_link))
  /\ GraphConvolution_to_cpu (snd lazy_link, fst lazy_link)
     = ((snd lazy_link, fst lazy_link), inr tt).
Proof.
  split; [reflexivity |].
  exact (to_cpu_of_new_link (P := platform false)
           None 32 test_graph 25 0%Q false None None empty_world
           (fst lazy_link) (snd lazy_link) (fst lazy_link) eq_refl).
Defined.

Lemma initialized_link_applies_filter_once_per_call_witness :
  exists (w1 : World) (l : GraphConvolution),
    GraphConvolution_init (P := platform false)
      (Some 1) 32 test_graph 25 0%Q false None None empty_world = (w1, inr l)
    /\ let s := forward_calls (P := platform false)
                  [batch 1; vector; batch 3] (l, w1) in
       count is_forward (snd s) = 3%nat /\ next_id (snd s) = 2%nat.
Proof.
  eexists. eexists. split; [vm_compute; reflexivity |].
  cbn zeta.
  match goal with
  | |- context [forward_calls _ (?l, ?w)] =>
      destruct (initialized_link_applies_filter_once_per_call
                  (P := platform false)
                  1 32 test_graph 25 0%Q false None None empty_world w l
                  eq_refl [batch 1; vector; batch 3] w)
        as (H1 & _ & H3)
  end.
  split; [exact H1 | exact H3].
Defined.

Lemma lazy_link_allocates_at_every_call_witness :
  (GraphConvolution_init (P := platform false)
     None 32 test_graph 25 0%Q false None None empty_world
   = (fst lazy_link, inr (snd lazy_link))
   /\ let s := forward_calls (P := platform false)
                 [batch 1; vector; batch 3] (snd lazy_link, fst lazy_link) in
      count is_new_parameter (snd s) = 4%nat
      /\ count is_forward (snd s) = 2%nat
      /\ next_id (snd s) = 4%nat)
  /\ (exists (w1 : World) (l : GraphConvolution),
        GraphConvolution_init (P := platform false)
          None 32 test_graph (-1) 0%Q false None None empty_world = (w1, inr l)
        /\ let s := forward_calls (P := platform false)
                      [batch 1; batch 3] (l, w1) in
           count is_forward (snd s) = 0%nat
           /\ next_id (snd s) = 2%nat).
Proof.
  split.
  - split; [reflexivity |].
    exact (lazy_link_allocates_at_every_call (P := platform false)
             32 test_graph 25 0%Q false None None empty_world
             (fst lazy_link) (snd lazy_link) eq_refl
             [batch 1; vector; batch 3] (fst lazy_link)).
  - eexists. eexists. split; [vm_compute; reflexivity |].
    cbn zeta.
    match goal with
    | |- context [forward_calls _ (?l, ?w)] =>
        destruct (lazy_link_allocates_at_every_call (P := platform false)
                    32 test_graph (-1) 0%Q false None None empty_world w l
                    eq_refl [batch 1; batch 3] w)
          as (_ & H2 & H3)
    end.
    split; [exact H2 | exact H3].
Defined.

Lemma coarsening_errors_propagate_witness :
  coarsen (Platform := strict_platform) not_square 4 = inl InvalidGraphError
  /\ GraphCNN_init (P := strict_platform) not_square 2 empty_world
     = (empty_world, inl InvalidGraphError).
Proof.
  split; [reflexivity |].
  exact (proj1 (coarsening_errors_propagate (P := strict_platform)
                  not_square 2 empty_world)
           InvalidGraphError eq_refl).
Defined.

Lemma model_layers_follow_shortest_list_witness :
  exists (w' : World) (m : GraphCNN),
    coarsen (Platform := platform false) test_graph 4 = inr levels4
    /\ combine (Platform := platform false) (fst levels4) (snd levels4) 2
       = inr combined2
    /\ GraphCNN_init (P := platform false) test_graph 2 empty_world = (w', inr m)
    /\ List.length (graph_layers m) = 2%nat
    /\ count is_laplacian w' = 2%nat
    /\ next_id w' = 4%nat.
Proof.
  eexists. eexists. split; [reflexivity |]. split; [reflexivity |].
  split; [vm_compute; reflexivity |].
  match goal with
  | |- context [graph_layers ?m] =>
      match goal with
      | |- context [next_id ?w] =>
          destruct (model_layers_follow_shortest_list (P := platform false)
                      test_graph 2 empty_world w m
                      (fst levels4) (fst combined2) (snd levels4) (snd combined2)
                      eq_refl eq_refl eq_refl)
            as (H1 & _ & _ & _ & H5 & _ & H7)
      end
  end.
  split; [exact H1 |]. split; [exact H5 | exact H7].
Defined.

(** The model of the test and the world after its construction. *)

Definition built_world : World :=
  fst (GraphCNN_init (P := platform false) test_graph 2 empty_world).

Definition built_model : GraphCNN :=
  match snd (GraphCNN_init (P := platform false) test_graph 2 empty_world) with
  | inr m => m
  | inl _ => mkGraphCNN [] [] (mkLinear None 2) true []
  end.

Lemma all_deferred (m : GraphCNN) :
  forallb (fun fp => has_uninitialized_params (fst fp)) (graph_layers m) = true ->
  Forall (fun fp => has_uninitialized_params (fst fp) = true) (graph_layers m).
Proof.
  intros H. apply Forall_forall. intros fp Hin.
  exact (proj1 (forallb_forall _ _) H fp Hin).
Qed.

Lemma model_pass_allocates_every_weight_witness :
  GraphCNN_init (P := platform false) test_graph 2 empty_world
  = (built_world, inr built_model)
  /\ Forall (fun fp => has_uninitialized_params (fst fp) = true)
       (graph_layers built_model)
  /\ snd (GraphCNN_call (P := platform false) (batch 1) []
            (built_model, built_world)) = inr [32; 2]
  /\ next_id (snd (fst (GraphCNN_call (P := platform false) (batch 1) []
                          (built_model, built_world)))) = 6%nat.
Proof.
  split; [vm_compute; reflexivity |].
  split; [apply all_deferred; reflexivity |].
  split; [vm_compute; reflexivity |].
  exact (proj1 (model_pass_allocates_every_weight (P := platform false)
                  (batch 1) [] built_model built_world
                  (fst (GraphCNN_call (P := platform false) (batch 1) []
                          (built_model, built_world)))
                  [32; 2]
                  (all_deferred built_model eq_refl) eq_refl)).
Defined.

Lemma graph_layer_error_stops_the_pass_witness :
  snd (apply_graph_layers (P := platform false)
         (graph_layers built_model) matrix built_world)
  = inl ShapeError
  /\ let r := GraphCNN_call (P := platform false) matrix []
                (built_model, built_world) in
     snd r = inl ShapeError
     /\ linear_layers (fst (fst r)) = linear_layers built_model
     /\ rng (snd (fst r)) = rng built_world.
Proof.
  split; [vm_compute; reflexivity |].
  destruct (graph_layer_error_stops_the_pass (P := platform false)
              matrix [] built_model built_world ShapeError eq_refl)
    as (H1 & H2 & _ & H4 & _).
  cbn zeta. split; [exact H1 |]. split; [exact H2 | exact H4].
Defined.

Lemma gpu_link_stays_on_its_gpu_witness :
  cuda_available (Platform := platform true) = true
  /\ GraphConvolution_init (P := platform true)
       None 32 test_graph 25 0%Q false None None empty_world
     = (fst lazy_link, inr (snd lazy_link))
  /\ let s := forward_calls (P := platform true) [batch 1; batch 3]
                (fst (GraphConvolution_to_gpu (P := platform true) (Some 1%nat)
                        (snd lazy_link, fst lazy_link))) in
     p_device (W (fst s)) = Gpu 1
     /\ f_device (func (fst s)) = Gpu 1.
Proof.
  split; [reflexivity |]. split; [reflexivity |].
  destruct (gpu_link_stays_on_its_gpu (P := platform true)
              None 32 test_graph 25 0%Q false None None empty_world
              (fst lazy_link) (snd lazy_link) (Some 1%nat) eq_refl eq_refl
              [batch 1; batch 3] (fst lazy_link))
    as (H1 & _ & H3 & _).
  cbn zeta. split; [exact H1 | exact H3].
Defined.

Lemma without_cuda_all_stays_on_cpu_witness :
  cuda_available (Platform := platform false) = false
  /\ GraphConvolution_init (P := platform false)
       None 32 test_graph 25 0%Q false None None empty_world
     = (fst lazy_link, inr (snd lazy_link))
  /\ let l' := fst (run_ops (P := platform false)
                      [DoCall (batch 1); DoToGpu None; DoToCpu; DoCall (batch 3)]
                      (snd lazy_link, fst lazy_link)) in
     p_device (W l') = Cpu /\ f_device (func l') = Cpu.
Proof.
  split; [reflexivity |]. split; [reflexivity |].
  destruct (without_cuda_all_stays_on_cpu (P := platform false)
              None 32 test_graph 25 0%Q false None None empty_world
              (fst lazy_link) (snd lazy_link) eq_refl eq_refl
              [DoCall (batch 1); DoToGpu None; DoToCpu; DoCall (batch 3)]
              (fst lazy_link))
    as (H1 & _ & H3).
  cbn zeta. split; [exact H1 | exact H3].
Defined.

End Runs.
